(** * ADV7180 analog video decoder driver: lock / standard detection,
      interrupt pipeline and control surface

    A shallow embedding of
    [drivers/staging/media/imx6/capture/adv7180.c] and the properties
    its design document states about it.

    The chip sits behind an SMBus.  Every bus transfer, GPIO change,
    sleep, mutex operation and sub-device notification the driver
    performs is appended to a [trace]; the answer the chip gives to a
    transfer is taken from an oracle that sees the whole history, so a
    theorem quantified over machines holds for every deterministic
    chip, faulty ones included. *)

From Stdlib Require Import ZArith List Bool String Lia.
Import ListNotations.
Local Open Scope Z_scope.

(* ================================================================== *)
(** ** Constants of kernel headers outside this file *)

(** The driver compares and stores [v4l2_std_id] values, returns
    negated errno values and asks [gpio_is_valid]; the numbers behind
    these names live in headers that are not part of the driver
    ([videodev2.h], [errno-base.h], [asm-generic/gpio.h]).  They are
    taken as parameters. *)
Class kernel_headers : Type := {
  V4L2_STD_NTSC : Z;
  V4L2_STD_NTSC_443 : Z;
  V4L2_STD_PAL_M : Z;
  V4L2_STD_PAL_60 : Z;
  V4L2_STD_PAL : Z;
  V4L2_STD_SECAM : Z;
  V4L2_STD_PAL_N : Z;
  EINVAL : Z;
  EPERM : Z;
  ARCH_NR_GPIOS : Z
}.

(** The values Linux gives them (used to instantiate the theorems). *)
Definition linux_headers : kernel_headers := {|
  V4L2_STD_NTSC := 0xB000;
  V4L2_STD_NTSC_443 := 0x4000;
  V4L2_STD_PAL_M := 0x100;
  V4L2_STD_PAL_60 := 0x800;
  V4L2_STD_PAL := 0xFF;
  V4L2_STD_SECAM := 0xFF0000;
  V4L2_STD_PAL_N := 0x200;
  EINVAL := 22;
  EPERM := 1;
  ARCH_NR_GPIOS := 512
|}.

(** The case labels of the [switch (ctrl->id)] in [adv7180_s_ctrl];
    any other id takes the [default:] branch. *)
Inductive v4l2_cid : Type :=
| V4L2_CID_BRIGHTNESS
| V4L2_CID_CONTRAST
| V4L2_CID_SATURATION
| V4L2_CID_HUE
| V4L2_CID_AUTO_WHITE_BALANCE
| V4L2_CID_DO_WHITE_BALANCE
| V4L2_CID_RED_BALANCE
| V4L2_CID_BLUE_BALANCE
| V4L2_CID_GAMMA
| V4L2_CID_EXPOSURE
| V4L2_CID_AUTOGAIN
| V4L2_CID_GAIN
| V4L2_CID_HFLIP
| V4L2_CID_VFLIP
| V4L2_CID_unlisted.

(** [enum irqreturn]. *)
Inductive irqreturn_t : Type := IRQ_NONE | IRQ_HANDLED | IRQ_WAKE_THREAD.

(* ================================================================== *)
(** ** C integer conversions *)

(** Conversion to [u8]. *)
Definition u8 (x : Z) : Z := x mod 256.

(** A C scalar used as a condition. *)
Definition truthy (x : Z) : bool := negb (x =? 0).

(* ================================================================== *)
(** ** Structures *)

Record v4l2_rect : Type := {
  rect_left : Z;
  rect_top : Z;
  rect_width : Z;
  rect_height : Z
}.

(** The members of [struct v4l2_mbus_framefmt] the driver touches. *)
Record v4l2_mbus_framefmt : Type := {
  fmt_width : Z;
  fmt_height : Z;
  fmt_code : Z;
  fmt_field : Z
}.

Record video_fmt_t : Type := {
  v4l2_id : Z;
  name : string;
  raw : v4l2_rect;
  crop : v4l2_rect
}.

Record adv7180_inputs_t : Type := {
  desc : string;
  insel : Z
}.

Record v4l2_ctrl : Type := {
  id : v4l2_cid;
  val : Z
}.

(** [struct adv7180_dev], without its handles to other kernel objects
    (regulators, sub-device, control handler, mutex) and without the
    members no function assigns ([red], [green], [blue], [ae_mode],
    [streamcap]). *)
Record adv7180_dev : Type := {
  irq : Z;                 (* i2c_client->irq *)
  fmt : v4l2_mbus_framefmt;
  rev_id : Z;
  on : bool;
  locked : bool;           (* locked to signal *)
  brightness : Z;
  hue : Z;
  contrast : Z;
  saturation : Z;
  pwdn_gpio : Z;
  std_id : Z;
  video_idx : Z;           (* Standard index of ADV7180. *)
  current_input : Z        (* Current analog input mux *)
}.

Definition set_fmt_size (w h : Z) (s : adv7180_dev) : adv7180_dev :=
  {| irq := irq s;
     fmt := {| fmt_width := w; fmt_height := h;
               fmt_code := fmt_code (fmt s); fmt_field := fmt_field (fmt s) |};
     rev_id := rev_id s; on := on s; locked := locked s;
     brightness := brightness s; hue := hue s; contrast := contrast s;
     saturation := saturation s; pwdn_gpio := pwdn_gpio s;
     std_id := std_id s; video_idx := video_idx s;
     current_input := current_input s |}.

Definition set_on (b : bool) (s : adv7180_dev) : adv7180_dev :=
  {| irq := irq s; fmt := fmt s; rev_id := rev_id s; on := b;
     locked := locked s;
     brightness := brightness s; hue := hue s; contrast := contrast s;
     saturation := saturation s; pwdn_gpio := pwdn_gpio s;
     std_id := std_id s; video_idx := video_idx s;
     current_input := current_input s |}.

Definition set_locked (b : bool) (s : adv7180_dev) : adv7180_dev :=
  {| irq := irq s; fmt := fmt s; rev_id := rev_id s; on := on s;
     locked := b;
     brightness := brightness s; hue := hue s; contrast := contrast s;
     saturation := saturation s; pwdn_gpio := pwdn_gpio s;
     std_id := std_id s; video_idx := video_idx s;
     current_input := current_input s |}.

Definition set_brightness (v : Z) (s : adv7180_dev) : adv7180_dev :=
  {| irq := irq s; fmt := fmt s; rev_id := rev_id s; on := on s;
     locked := locked s;
     brightness := v; hue := hue s; contrast := contrast s;
     saturation := saturation s; pwdn_gpio := pwdn_gpio s;
     std_id := std_id s; video_idx := video_idx s;
     current_input := current_input s |}.

Definition set_hue (v : Z) (s : adv7180_dev) : adv7180_dev :=
  {| irq := irq s; fmt := fmt s; rev_id := rev_id s; on := on s;
     locked := locked s;
     brightness := brightness s; hue := v; contrast := contrast s;
     saturation := saturation s; pwdn_gpio := pwdn_gpio s;
     std_id := std_id s; video_idx := video_idx s;
     current_input := current_input s |}.

Definition set_contrast (v : Z) (s : adv7180_dev) : adv7180_dev :=
  {| irq := irq s; fmt := fmt s; rev_id := rev_id s; on := on s;
     locked := locked s;
     brightness := brightness s; hue := hue s; contrast := v;
     saturation := saturation s; pwdn_gpio := pwdn_gpio s;
     std_id := std_id s; video_idx := video_idx s;
     current_input := current_input s |}.

Definition set_saturation (v : Z) (s : adv7180_dev) : adv7180_dev :=
  {| irq := irq s; fmt := fmt s; rev_id := rev_id s; on := on s;
     locked := locked s;
     brightness := brightness s; hue := hue s; contrast := contrast s;
     saturation := v; pwdn_gpio := pwdn_gpio s;
     std_id := std_id s; video_idx := video_idx s;
     current_input := current_input s |}.

Definition set_std_id (v : Z) (s : adv7180_dev) : adv7180_dev :=
  {| irq := irq s; fmt := fmt s; rev_id := rev_id s; on := on s;
     locked := locked s;
     brightness := brightness s; hue := hue s; contrast := contrast s;
     saturation := saturation s; pwdn_gpio := pwdn_gpio s;
     std_id := v; video_idx := video_idx s;
     current_input := current_input s |}.

Definition set_video_idx (v : Z) (s : adv7180_dev) : adv7180_dev :=
  {| irq := irq s; fmt := fmt s; rev_id := rev_id s; on := on s;
     locked := locked s;
     brightness := brightness s; hue := hue s; contrast := contrast s;
     saturation := saturation s; pwdn_gpio := pwdn_gpio s;
     std_id := std_id s; video_idx := v;
     current_input := current_input s |}.

Definition set_current_input (v : Z) (s : adv7180_dev) : adv7180_dev :=
  {| irq := irq s; fmt := fmt s; rev_id := rev_id s; on := on s;
     locked := locked s;
     brightness := brightness s; hue := hue s; contrast := contrast s;
     saturation := saturation s; pwdn_gpio := pwdn_gpio s;
     std_id := std_id s; video_idx := video_idx s;
     current_input := v |}.

(* ================================================================== *)
(** ** Register map and bit names *)

Definition ADV7180_NTSC : Z := 0.
Definition ADV7180_PAL : Z := 1.

Definition ADV7180_INPUT_CTL : Z := 0x00.
Definition ADV7180_STATUS_1 : Z := 0x10.
Definition ADV7180_IN_LOCK : Z := Z.shiftl 1 0.
Definition ADV7180_LOST_LOCK : Z := Z.shiftl 1 1.
Definition ADV7180_FSC_LOCK : Z := Z.shiftl 1 2.
Definition ADV7180_AD_RESULT_BIT : Z := 4.
Definition ADV7180_AD_RESULT_MASK : Z := Z.shiftl 0x7 ADV7180_AD_RESULT_BIT.
Definition ADV7180_AD_NTSC : Z := 0.
Definition ADV7180_AD_NTSC_4_43 : Z := 1.
Definition ADV7180_AD_PAL_M : Z := 2.
Definition ADV7180_AD_PAL_60 : Z := 3.
Definition ADV7180_AD_PAL : Z := 4.
Definition ADV7180_AD_SECAM : Z := 5.
Definition ADV7180_AD_PAL_N : Z := 6.
Definition ADV7180_AD_SECAM_525 : Z := 7.
Definition ADV7180_CONTRAST : Z := 0x08.
Definition ADV7180_BRIGHTNESS : Z := 0x0a.
Definition ADV7180_HUE_REG : Z := 0x0b.
Definition ADV7180_IDENT : Z := 0x11.
Definition ADV7180_SD_SATURATION_CB : Z := 0xe3.
Definition ADV7180_SD_SATURATION_CR : Z := 0xe4.
Definition ADV7180_PWR_MNG : Z := 0x0f.
Definition ADV7180_INT_CONFIG_1 : Z := 0x40.
Definition ADV7180_INT_STATUS_1 : Z := 0x42.
Definition ADV7180_INT_SD_LOCK : Z := Z.shiftl 1 0.
Definition ADV7180_INT_SD_UNLOCK : Z := Z.shiftl 1 1.
Definition ADV7180_INT_CLEAR_1 : Z := 0x43.
Definition ADV7180_INT_MASK_1 : Z := 0x44.
Definition ADV7180_INT_RAW_STATUS_3 : Z := 0x49.
Definition ADV7180_INT_SD_V_LOCK : Z := Z.shiftl 1 1.
Definition ADV7180_INT_STATUS_3 : Z := 0x4a.
Definition ADV7180_INT_SD_V_LOCK_CHNG : Z := Z.shiftl 1 1.
Definition ADV7180_INT_SD_AD_CHNG : Z := Z.shiftl 1 3.
Definition ADV7180_INT_CLEAR_3 : Z := 0x4b.
Definition ADV7180_INT_MASK_3 : Z := 0x4c.

(** Analog Inputs on 64-Lead and 48-Lead LQFP *)
Definition adv7180_inputs_64_48 : list adv7180_inputs_t :=
  [ {| insel := 0x00; desc := "ADV7180 Composite on Ain1" |};
    {| insel := 0x01; desc := "ADV7180 Composite on Ain2" |};
    {| insel := 0x02; desc := "ADV7180 Composite on Ain3" |};
    {| insel := 0x03; desc := "ADV7180 Composite on Ain4" |};
    {| insel := 0x04; desc := "ADV7180 Composite on Ain5" |};
    {| insel := 0x05; desc := "ADV7180 Composite on Ain6" |};
    {| insel := 0x06; desc := "ADV7180 Y/C on Ain1/4" |};
    {| insel := 0x07; desc := "ADV7180 Y/C on Ain2/5" |};
    {| insel := 0x08; desc := "ADV7180 Y/C on Ain3/6" |};
    {| insel := 0x09; desc := "ADV7180 YPbPr on Ain1/4/5" |};
    {| insel := 0x0a; desc := "ADV7180 YPbPr on Ain2/3/6" |} ].

(* ================================================================== *)
(** ** The machine: driver state, chip and trace *)

(** One SMBus byte transfer as the driver requests it. *)
Inductive xfer : Type :=
| Rd (reg : Z)
| Wr (reg value : Z).

(** What the driver does to the world outside its own structure. *)
Inductive event : Type :=
| I2c (x : xfer) (ret : Z)   (* a transfer and what the bus returned *)
| GpioSet (gpio value : Z)   (* gpio_set_value_cansleep *)
| Usleep (lo hi : Z)         (* usleep_range *)
| MutexLock                  (* mutex_lock(&sensor->mutex) *)
| MutexUnlock                (* mutex_unlock(&sensor->mutex) *)
| Notify.                    (* v4l2_subdev_notify(.., DECODER_STATUS_CHANGE_NOTIFY, NULL) *)

(** [chip history x] is what [i2c_smbus_*_byte_data] returns for the
    transfer [x] after [history]: a negative errno on failure, else the
    byte read, or 0 for a write. *)
Record machine : Type := {
  sensor : adv7180_dev;
  chip : list event -> xfer -> Z;
  trace : list event
}.

Definition emit (e : event) (m : machine) : machine :=
  {| sensor := sensor m; chip := chip m; trace := trace m ++ [e] |}.

Definition update_sensor (f : adv7180_dev -> adv7180_dev) (m : machine) : machine :=
  {| sensor := f (sensor m); chip := chip m; trace := trace m |}.

(** A statement sequence inside a function returning [int]: it either
    falls through with a value ([Next]) or executes [return r]. *)
Inductive flow (A : Type) : Type :=
| Next (a : A)
| Return (r : Z).
Arguments Next {A} a.
Arguments Return {A} r.

Definition stmt (A : Type) : Type := machine -> flow A * machine.

Definition ret {A : Type} (a : A) : stmt A := fun m => (Next a, m).

Definition bind {A B : Type} (c : stmt A) (k : A -> stmt B) : stmt B :=
  fun m =>
    match c m with
    | (Next a, m') => k a m'
    | (Return r, m') => (Return r, m')
    end.

Definition return_ {A : Type} (r : Z) : stmt A := fun m => (Return r, m).

Definition get_sensor : stmt adv7180_dev := fun m => (Next (sensor m), m).

Definition modify (f : adv7180_dev -> adv7180_dev) : stmt unit :=
  fun m => (Next tt, update_sensor f m).

Declare Scope stmt_scope.
Delimit Scope stmt_scope with stmt.
Notation "x <- c ;; k" := (bind c (fun x => k))
  (at level 61, c at next level, right associativity) : stmt_scope.
Notation "c ;; k" := (bind c (fun _ => k))
  (at level 61, right associativity) : stmt_scope.

(** A function with a [bool *status_change] out-parameter.  [stored] is
    what the pointee holds whenever the body executes [return]: the
    caller's own value when the body has not stored yet, or the value
    of a store the body starts with.  A body that falls through with
    [b] has stored [b] and returns 0. *)
Definition with_out (stored : bool) (body : stmt bool) (m : machine)
  : (Z * bool) * machine :=
  match body m with
  | (Next b, m') => ((0, b), m')
  | (Return r, m') => ((r, stored), m')
  end.

(* ================================================================== *)
(** ** Kernel services *)

Definition i2c_smbus_read_byte_data (reg : Z) (m : machine) : Z * machine :=
  let r := chip m (trace m) (Rd reg) in
  (r, emit (I2c (Rd reg) r) m).

Definition i2c_smbus_write_byte_data (reg value : Z) (m : machine) : Z * machine :=
  let r := chip m (trace m) (Wr reg value) in
  (r, emit (I2c (Wr reg value) r) m).

Definition gpio_set_value_cansleep (gpio value : Z) (m : machine) : machine :=
  emit (GpioSet gpio value) m.

Definition usleep_range (lo hi : Z) (m : machine) : machine :=
  emit (Usleep lo hi) m.

Definition mutex_lock (m : machine) : machine := emit MutexLock m.
Definition mutex_unlock (m : machine) : machine := emit MutexUnlock m.
Definition v4l2_subdev_notify (m : machine) : machine := emit Notify m.

(* ================================================================== *)
(** ** I2C transfer *)

(** Result of [adv7180_read_reg]: the error it returns, or return
    value 0 together with the byte stored through [val]. *)
Inductive read_result : Type :=
| ReadErr (ret : Z)
| ReadOk (byte : Z).

Definition adv7180_read_reg (reg : Z) (m : machine) : read_result * machine :=
  let (r, m') := i2c_smbus_read_byte_data reg m in
  if r <? 0 then (ReadErr r, m')
  else (ReadOk (u8 r), m').

(** The [u8 val] parameter converts its argument. *)
Definition adv7180_write_reg (reg value : Z) (m : machine) : Z * machine :=
  i2c_smbus_write_byte_data reg (u8 value) m.

Definition ADV7180_READ_REG (reg : Z) : stmt Z :=
  fun m =>
    match adv7180_read_reg reg m with
    | (ReadErr r, m') => (Return r, m')
    | (ReadOk v, m') => (Next v, m')
    end.

Definition ADV7180_WRITE_REG (reg value : Z) : stmt unit :=
  fun m =>
    let (r, m') := adv7180_write_reg reg value m in
    if truthy r then (Return r, m') else (Next tt, m').

(* ================================================================== *)
(** ** The driver *)

Section Driver.
Context {hdr : kernel_headers}.
Local Open Scope stmt_scope.

(** Description of video formats supported.
    PAL: raw=720x625, crop=720x576.  NTSC: raw=720x525, crop=720x480. *)
Definition video_fmts : list video_fmt_t :=
  [ {| v4l2_id := V4L2_STD_NTSC;
       name := "NTSC";
       raw := {| rect_left := 0; rect_top := 0;
                 rect_width := 720; rect_height := 525 |};
       crop := {| rect_left := 0; rect_top := 13;
                  rect_width := 720; rect_height := 480 |} |};
    {| v4l2_id := V4L2_STD_PAL;
       name := "PAL";
       raw := {| rect_left := 0; rect_top := 0;
                 rect_width := 720; rect_height := 625 |};
       crop := {| rect_left := 0; rect_top := 0;
                  rect_width := 720; rect_height := 576 |} |} ].

(** [video_fmts[idx]]; the driver only ever indexes with
    [ADV7180_NTSC] or [ADV7180_PAL]. *)
Definition video_fmts_at (idx : Z) : video_fmt_t :=
  nth (Z.to_nat idx) video_fmts
      {| v4l2_id := 0; name := "";
         raw := {| rect_left := 0; rect_top := 0; rect_width := 0; rect_height := 0 |};
         crop := {| rect_left := 0; rect_top := 0; rect_width := 0; rect_height := 0 |} |}.

(** The [switch (ad_result)] of [adv7180_get_autodetect_std]: the pair
    [(std, idx)] it leaves in the two locals, which start out as
    [(V4L2_STD_PAL, ADV7180_PAL)]. *)
Definition ad_result_switch (ad_result : Z) : Z * Z :=
  if ad_result =? ADV7180_AD_PAL then (V4L2_STD_PAL, ADV7180_PAL)
  else if ad_result =? ADV7180_AD_PAL_M then (V4L2_STD_PAL_M, ADV7180_NTSC)
  else if ad_result =? ADV7180_AD_PAL_N then (V4L2_STD_PAL_N, ADV7180_PAL)
  else if ad_result =? ADV7180_AD_PAL_60 then (V4L2_STD_PAL_60, ADV7180_NTSC)
  else if ad_result =? ADV7180_AD_NTSC then (V4L2_STD_NTSC, ADV7180_NTSC)
  else if ad_result =? ADV7180_AD_NTSC_4_43 then (V4L2_STD_NTSC_443, ADV7180_NTSC)
  else if ad_result =? ADV7180_AD_SECAM then (V4L2_STD_SECAM, ADV7180_PAL)
  else if ad_result =? ADV7180_AD_SECAM_525 then (V4L2_STD_SECAM, ADV7180_NTSC)
  else (V4L2_STD_PAL, ADV7180_PAL).

(** [(stat1 & ADV7180_AD_RESULT_MASK) >> ADV7180_AD_RESULT_BIT] *)
Definition ad_result_of (stat1 : Z) : Z :=
  Z.shiftr (Z.land stat1 ADV7180_AD_RESULT_MASK) ADV7180_AD_RESULT_BIT.

(** Read AD_RESULT to get the autodetected video standard.
    [status_change] is the caller's variable behind the pointer; the
    function overwrites it before anything else. *)
Definition adv7180_get_autodetect_std (status_change : bool)
  : machine -> (Z * bool) * machine :=
  with_out false                                   (* *status_change = false; *)
    (s <- get_sensor ;;
     if negb (locked s) then return_ 0             (* no status change *)
     else
       stat1 <- ADV7180_READ_REG ADV7180_STATUS_1 ;;
       let ad_result := ad_result_of stat1 in
       let (std, idx) := ad_result_switch ad_result in
       s <- get_sensor ;;
       if negb (std =? std_id s) then
         modify (set_video_idx idx) ;;
         modify (set_std_id std) ;;
         s <- get_sensor ;;
         modify (set_fmt_size (rect_width (raw (video_fmts_at (video_idx s))))
                              (rect_height (raw (video_fmts_at (video_idx s))))) ;;
         ret true                                  (* *status_change = true; *)
       else ret false).

(** The value assigned to [*status_change] by
    [adv7180_update_lock_status]. *)
Definition lock_status_change_of (int_stat1 int_stat3 : Z) : bool :=
  truthy (Z.land int_stat1 ADV7180_INT_SD_LOCK)
  || truthy (Z.land int_stat1 ADV7180_INT_SD_UNLOCK)
  || truthy (Z.land int_stat3 ADV7180_INT_SD_V_LOCK_CHNG).

(** The value assigned to [sensor->locked] by
    [adv7180_update_lock_status]. *)
Definition locked_of (stat1 int_raw_stat3 : Z) : bool :=
  truthy (Z.land stat1 ADV7180_IN_LOCK)
  && truthy (Z.land stat1 ADV7180_FSC_LOCK)
  && truthy (Z.land int_raw_stat3 ADV7180_INT_SD_V_LOCK).

(** Update lock status.  [status_change] is the caller's variable
    behind the pointer: it is only stored to by the last statements. *)
Definition adv7180_update_lock_status (status_change : bool)
  : machine -> (Z * bool) * machine :=
  with_out status_change
    (stat1 <- ADV7180_READ_REG ADV7180_STATUS_1 ;;
     (* Switch to interrupt register map *)
     ADV7180_WRITE_REG 0x0E 0x20 ;;
     int_stat1 <- ADV7180_READ_REG ADV7180_INT_STATUS_1 ;;
     int_stat3 <- ADV7180_READ_REG ADV7180_INT_STATUS_3 ;;
     (* clear the interrupts *)
     ADV7180_WRITE_REG ADV7180_INT_CLEAR_1 int_stat1 ;;
     ADV7180_WRITE_REG ADV7180_INT_CLEAR_3 int_stat3 ;;
     int_raw_stat3 <- ADV7180_READ_REG ADV7180_INT_RAW_STATUS_3 ;;
     (* Switch back to normal register map *)
     ADV7180_WRITE_REG 0x0E 0x00 ;;
     modify (set_locked (locked_of stat1 int_raw_stat3)) ;;
     ret (lock_status_change_of int_stat1 int_stat3)).

(** [gpio_is_valid] of [asm-generic/gpio.h]. *)
Definition gpio_is_valid (number : Z) : bool :=
  (0 <=? number) && (number <? ARCH_NR_GPIOS).

Definition adv7180_power (enable : bool) (m : machine) : machine :=
  let m :=
    if enable && negb (on (sensor m)) then
      let m := if gpio_is_valid (pwdn_gpio (sensor m))
               then gpio_set_value_cansleep (pwdn_gpio (sensor m)) 1 m
               else m in
      let m := usleep_range 5000 5001 m in
      snd (adv7180_write_reg ADV7180_PWR_MNG 0 m)
    else if negb enable && on (sensor m) then
      let m := snd (adv7180_write_reg ADV7180_PWR_MNG 0x24 m) in
      if gpio_is_valid (pwdn_gpio (sensor m))
      then gpio_set_value_cansleep (pwdn_gpio (sensor m)) 0 m
      else m
    else m in
  update_sensor (set_on enable) m.

(** Threaded irq handler.  Its two locals are not initialised;
    [std_change] and [lock_status_change] are what their stack slots
    hold on entry. *)
Definition adv7180_interrupt (std_change lock_status_change : bool)
                             (m : machine) : irqreturn_t * machine :=
  let m := mutex_lock m in
  let '((_, lock_status_change), m) :=
    adv7180_update_lock_status lock_status_change m in
  let '((_, std_change), m) := adv7180_get_autodetect_std std_change m in
  let m := mutex_unlock m in
  let m := if lock_status_change || std_change
           then v4l2_subdev_notify m else m in
  (IRQ_HANDLED, m).

Definition adv7180_find_input (insel0 : Z) : option adv7180_inputs_t :=
  find (fun i => insel0 =? insel i) adv7180_inputs_64_48.

(** [adv7180_querystd]; [std] is the caller's variable behind the
    pointer. *)
Definition adv7180_querystd (std : Z) (m : machine) : (Z * Z) * machine :=
  let m := mutex_lock m in
  (* If we have the ADV7180 irq, we can just return the currently
     detected standard. Otherwise we have to poll the AD_RESULT bits
     every time querystd() is called. *)
  if negb (truthy (irq (sensor m))) then
    let '((r, _), m) := adv7180_update_lock_status false m in
    if truthy r then ((r, std), mutex_unlock m)
    else
      let '((r, _), m) := adv7180_get_autodetect_std false m in
      if truthy r then ((r, std), mutex_unlock m)
      else ((r, std_id (sensor m)), mutex_unlock m)
  else ((0, std_id (sensor m)), mutex_unlock m).

(** Controls *)
Definition adv7180_s_ctrl (ctrl : v4l2_ctrl) (m : machine) : Z * machine :=
  let body : stmt Z :=
    let tmp := u8 (val ctrl) in
    match id ctrl with
    | V4L2_CID_BRIGHTNESS =>
        ADV7180_WRITE_REG ADV7180_BRIGHTNESS tmp ;;
        modify (set_brightness (val ctrl)) ;;
        ret 0
    | V4L2_CID_CONTRAST =>
        ADV7180_WRITE_REG ADV7180_CONTRAST tmp ;;
        modify (set_contrast (val ctrl)) ;;
        ret 0
    | V4L2_CID_SATURATION =>
        ADV7180_WRITE_REG ADV7180_SD_SATURATION_CB tmp ;;
        ADV7180_WRITE_REG ADV7180_SD_SATURATION_CR tmp ;;
        modify (set_saturation (val ctrl)) ;;
        ret 0
    | V4L2_CID_HUE =>
        (* Hue is inverted according to HSL chart *)
        ADV7180_WRITE_REG ADV7180_HUE_REG (- tmp) ;;
        modify (set_hue (val ctrl)) ;;
        ret 0
    | V4L2_CID_AUTO_WHITE_BALANCE
    | V4L2_CID_DO_WHITE_BALANCE
    | V4L2_CID_RED_BALANCE
    | V4L2_CID_BLUE_BALANCE
    | V4L2_CID_GAMMA
    | V4L2_CID_EXPOSURE
    | V4L2_CID_AUTOGAIN
    | V4L2_CID_GAIN
    | V4L2_CID_HFLIP
    | V4L2_CID_VFLIP => ret 0
    | V4L2_CID_unlisted => ret (- EPERM)
    end in
  match body m with
  | (Next r, m') => (r, m')
  | (Return r, m') => (r, m')
  end.

Definition adv7180_s_routing (input output config : Z) (m : machine)
  : Z * machine :=
  match adv7180_find_input input with
  | None => (- EINVAL, m)
  | Some advinput =>
      let m := mutex_lock m in
      let m := snd (adv7180_write_reg ADV7180_INPUT_CTL (insel advinput) m) in
      let m := update_sensor (set_current_input input) m in
      let m := mutex_unlock m in
      (0, m)
  end.

End Driver.

(* ================================================================== *)
(** ** Reading traces *)

(** What the call that took [m] to [m'] appended to the trace. *)
Definition events_since (m m' : machine) : list event :=
  skipn (List.length (trace m)) (trace m').

(** A transfer the driver's macros treat as failed: a negative return
    of a read, a non-zero return of a write. *)
Definition i2c_failed (e : event) : bool :=
  match e with
  | I2c (Rd _) r => r <? 0
  | I2c (Wr _ _) r => truthy r
  | _ => false
  end.

(** The write that selects the interrupt register map. *)
Definition is_bank_switch (e : event) : bool :=
  match e with
  | I2c (Wr reg value) _ => (reg =? 0x0E) && (value =? 0x20)
  | _ => false
  end.

(** The write that selects the normal register map again. *)
Definition is_bank_restore (e : event) : bool :=
  match e with
  | I2c (Wr reg value) _ => (reg =? 0x0E) && (value =? 0x00)
  | _ => false
  end.

Definition is_notify (e : event) : bool :=
  match e with
  | Notify => true
  | _ => false
  end.

Definition notifications (evs : list event) : nat :=
  List.length (filter is_notify evs).

Definition is_i2c (e : event) : bool :=
  match e with
  | I2c _ _ => true
  | _ => false
  end.

(** A statement sequence that touches the world through bus transfers
    only: it appends transfers to the trace and nothing else. *)
Definition bus_only {A : Type} (c : stmt A) : Prop :=
  forall m, exists evs,
    trace (snd (c m)) = trace m ++ evs
    /\ chip (snd (c m)) = chip m
    /\ forallb is_i2c evs = true.

(** The bus traffic of a complete [adv7180_update_lock_status], given
    the four values the reads returned. *)
Definition lock_status_traffic (v1 v2 v3 v4 : Z) : list event :=
  [ I2c (Rd ADV7180_STATUS_1) v1;
    I2c (Wr 0x0E 0x20) 0;
    I2c (Rd ADV7180_INT_STATUS_1) v2;
    I2c (Rd ADV7180_INT_STATUS_3) v3;
    I2c (Wr ADV7180_INT_CLEAR_1 (u8 v2)) 0;
    I2c (Wr ADV7180_INT_CLEAR_3 (u8 v3)) 0;
    I2c (Rd ADV7180_INT_RAW_STATUS_3) v4;
    I2c (Wr 0x0E 0x00) 0 ].

(** The machine [m] after a call that left the driver structure as
    [s] and appended [evs] to the trace. *)
Definition later (m : machine) (s : adv7180_dev) (evs : list event) : machine :=
  {| sensor := s; chip := chip m; trace := trace m ++ evs |}.

(** Two's-complement negation in 8 bits: invert, add one, keep the low
    byte. *)
Definition neg8 (v : Z) : Z := Z.land (Z.lnot v + 1) 0xFF.

(* ================================================================== *)
(** ** Concrete chips and machines *)

(** A chip that acknowledges every transfer and answers reads from a
    fixed register file. *)
Definition acking_chip (regs : Z -> Z) : list event -> xfer -> Z :=
  fun _ x =>
    match x with
    | Rd reg => u8 (regs reg)
    | Wr _ _ => 0
    end.

(** The same chip, except that the transfers selected by [bad] fail
    with [err]. *)
Definition faulty_chip (bad : xfer -> bool) (err : Z) (regs : Z -> Z)
  : list event -> xfer -> Z :=
  fun h x => if bad x then err else acking_chip regs h x.

Definition is_read_of (reg0 : Z) (x : xfer) : bool :=
  match x with
  | Rd reg => reg =? reg0
  | Wr _ _ => false
  end.

Definition is_write_of (reg0 : Z) (x : xfer) : bool :=
  match x with
  | Rd _ => false
  | Wr reg _ => reg =? reg0
  end.

(** Register file with the given contents of STATUS_1, INT_STATUS_1,
    INT_STATUS_3 and INT_RAW_STATUS_3, zero elsewhere. *)
Definition status_regs (stat1 int_stat1 int_stat3 int_raw_stat3 : Z) (reg : Z) : Z :=
  if reg =? ADV7180_STATUS_1 then stat1
  else if reg =? ADV7180_INT_STATUS_1 then int_stat1
  else if reg =? ADV7180_INT_STATUS_3 then int_stat3
  else if reg =? ADV7180_INT_RAW_STATUS_3 then int_raw_stat3
  else 0.

(** The driver structure as [adv7180_probe] leaves it with
    default-std = "ntsc", no irq and no power-down gpio, before the
    first lock poll. *)
Definition ntsc_sensor : adv7180_dev :=
  {| irq := 0;
     fmt := {| fmt_width := 720; fmt_height := 525; fmt_code := 0; fmt_field := 0 |};
     rev_id := 0x1c; on := true; locked := false;
     brightness := 0; hue := 0; contrast := 128; saturation := 128;
     pwdn_gpio := -1;
     std_id := @V4L2_STD_NTSC linux_headers;
     video_idx := ADV7180_NTSC;
     current_input := 0 |}.

Definition boot (s : adv7180_dev) (c : list event -> xfer -> Z) : machine :=
  {| sensor := s; chip := c; trace := [] |}.

(** [-EIO] *)
Definition EIO_neg : Z := -5.

(** A locked NTSC decoder whose chip fails every read of Interrupt
    Status 1 with [-EIO] and is healthy otherwise; STATUS_1 reads 0x05
    (IN_LOCK and FSC_LOCK), Interrupt Status 1 would read SD_UNLOCK,
    Raw Status 3 reads SD_V_LOCK. *)
Definition m_nak_int_status1 : machine :=
  boot (set_locked true ntsc_sensor)
       (faulty_chip (is_read_of ADV7180_INT_STATUS_1) EIO_neg
                    (status_regs 0x05 0x02 0x00 0x02)).

(** An unlocked NTSC decoder whose chip fails every read of STATUS_1
    with [-EIO]. *)
Definition m_nak_status1 : machine :=
  boot ntsc_sensor
       (faulty_chip (is_read_of ADV7180_STATUS_1) EIO_neg
                    (status_regs 0x05 0x02 0x00 0x02)).

(** An NTSC decoder on input 0 whose chip fails every write to Input
    Control with [-EIO]. *)
Definition m_nak_input_ctl : machine :=
  boot ntsc_sensor
       (faulty_chip (is_write_of ADV7180_INPUT_CTL) EIO_neg
                    (status_regs 0x05 0x00 0x00 0x02)).

(** A locked NTSC decoder in front of a healthy chip whose STATUS_1
    reads [stat1]. *)
Definition m_locked (stat1 : Z) : machine :=
  boot (set_locked true ntsc_sensor)
       (acking_chip (status_regs stat1 0x00 0x00 0x02)).

(** A healthy chip whose STATUS_1 reads [stat1] and whose Raw Status 3
    reads [int_raw_stat3], in front of the NTSC driver structure. *)
Definition m_healthy (stat1 int_raw_stat3 : Z) : machine :=
  boot ntsc_sensor (acking_chip (status_regs stat1 0x00 0x00 int_raw_stat3)).

Section Tables.
Context {hdr : kernel_headers}.

(** The autodetect table of the design document (section 4.1), row by
    row: code, standard, table index. *)
Definition spec_autodetect_table : list (Z * (Z * Z)) :=
  [ (0, (V4L2_STD_NTSC, ADV7180_NTSC));
    (1, (V4L2_STD_NTSC_443, ADV7180_NTSC));
    (2, (V4L2_STD_PAL_M, ADV7180_NTSC));
    (3, (V4L2_STD_PAL_60, ADV7180_NTSC));
    (4, (V4L2_STD_PAL, ADV7180_PAL));
    (5, (V4L2_STD_SECAM, ADV7180_PAL));
    (6, (V4L2_STD_PAL_N, ADV7180_PAL));
    (7, (V4L2_STD_SECAM, ADV7180_NTSC)) ].

End Tables.

(* ================================================================== *)
(** ** More of the driver: reset, interrupt enable, queries *)

(** Constants of [videodev2.h] used by the query operations; like
    [kernel_headers] they are parameters. *)
Class v4l2_headers : Type := {
  V4L2_IN_ST_NO_POWER : Z;
  V4L2_IN_ST_NO_SIGNAL : Z;
  V4L2_IN_ST_NO_SYNC : Z;
  V4L2_FRMSIZE_TYPE_DISCRETE : Z;
  V4L2_BUF_TYPE_VIDEO_CAPTURE : Z
}.

(** The values Linux gives them. *)
Definition linux_v4l2_headers : v4l2_headers := {|
  V4L2_IN_ST_NO_POWER := 0x00000001;
  V4L2_IN_ST_NO_SIGNAL := 0x00000002;
  V4L2_IN_ST_NO_SYNC := 0x00010000;
  V4L2_FRMSIZE_TYPE_DISCRETE := 1;
  V4L2_BUF_TYPE_VIDEO_CAPTURE := 1
|}.

(** The members of [struct v4l2_queryctrl] that
    [adv7180_init_controls] hands to the control framework. *)
Record v4l2_queryctrl : Type := {
  qc_id : v4l2_cid;
  qc_name : string;
  minimum : Z;
  maximum : Z;
  step : Z;
  default_value : Z
}.

(** supported controls *)
Definition adv7180_qctrl : list v4l2_queryctrl :=
  [ {| qc_id := V4L2_CID_BRIGHTNESS; qc_name := "Brightness";
       minimum := 0; maximum := 255; step := 1; default_value := 0 |};
    {| qc_id := V4L2_CID_SATURATION; qc_name := "Saturation";
       minimum := 0; maximum := 255; step := 0x1; default_value := 128 |};
    {| qc_id := V4L2_CID_CONTRAST; qc_name := "Contrast";
       minimum := 0; maximum := 255; step := 0x1; default_value := 128 |};
    {| qc_id := V4L2_CID_HUE; qc_name := "Hue";
       minimum := -127; maximum := 128; step := 0x1; default_value := 0 |} ].

(** [struct v4l2_frmsizeenum], with the [discrete] member of its
    union. *)
Record v4l2_frmsizeenum : Type := {
  fs_index : Z;
  fs_type : Z;
  fs_discrete_width : Z;
  fs_discrete_height : Z
}.

Record v4l2_crop : Type := {
  crop_type : Z;
  crop_c : v4l2_rect
}.

(** A function body of type [int]: the value it returns, whether by
    a [return] inside a macro or by its last statement. *)
Definition returning (body : stmt Z) (m : machine) : Z * machine :=
  match body m with
  | (Next r, m') => (r, m')
  | (Return r, m') => (r, m')
  end.

(** [ADV7180_WRITE_REG(sensor, reg, value);] for each pair in turn. *)
Fixpoint write_regs (program : list (Z * Z)) : stmt unit :=
  match program with
  | [] => ret tt
  | (reg, value) :: rest =>
      bind (ADV7180_WRITE_REG reg value) (fun _ => write_regs rest)
  end.

(** The writes of [adv7180_hard_reset] after the reset pulse, in source
    order: the analog mux for Composite Ain1, then the datasheet's
    recommended values. *)
Definition adv7180_hard_reset_writes : list (Z * Z) :=
  [
    (ADV7180_INPUT_CTL, 0x00); (0x01, 0xc8); (0x02, 0x04); (0x03, 0x00); (0x04, 0x45); (0x05, 0x00);
    (0x06, 0x02); (0x07, 0x7F); (0x08, 0x80); (0x0A, 0x00); (0x0B, 0x00); (0x0C, 0x36);
    (0x0D, 0x7C); (0x0E, 0x00); (0x0F, 0x00); (0x13, 0x00); (0x14, 0x12); (0x15, 0x00);
    (0x16, 0x00); (0x17, 0x01); (0x18, 0x93); (0xF1, 0x19); (0x1A, 0x00); (0x1B, 0x00);
    (0x1C, 0x00); (0x1D, 0x40); (0x1E, 0x00); (0x1F, 0x00); (0x20, 0x00); (0x21, 0x00);
    (0x22, 0x00); (0x23, 0xC0); (0x24, 0x00); (0x25, 0x00); (0x26, 0x00); (0x27, 0x58);
    (0x28, 0x00); (0x29, 0x00); (0x2A, 0x00); (0x2B, 0xE1); (0x2C, 0xAE); (0x2D, 0xF4);
    (0x2E, 0x00); (0x2F, 0xF0); (0x30, 0x00); (0x31, 0x12); (0x32, 0x41); (0x33, 0x84);
    (0x34, 0x00); (0x35, 0x02); (0x36, 0x00); (0x37, 0x01); (0x38, 0x80); (0x39, 0xC0);
    (0x3A, 0x10); (0x3B, 0x05); (0x3C, 0x58); (0x3D, 0xB2); (0x3E, 0x64); (0x3F, 0xE4);
    (0x40, 0x90); (0x41, 0x01); (0x42, 0x7E); (0x43, 0xA4); (0x44, 0xFF); (0x45, 0xB6);
    (0x46, 0x12); (0x48, 0x00); (0x49, 0x00); (0x4A, 0x00); (0x4B, 0x00); (0x4C, 0x00);
    (0x4D, 0xEF); (0x4E, 0x08); (0x4F, 0x08); (0x50, 0x08); (0x51, 0xA4); (0x52, 0x0B);
    (0x53, 0x4E); (0x54, 0x80); (0x55, 0x00); (0x56, 0x10); (0x57, 0x00); (0x58, 0x00);
    (0x59, 0x00); (0x5A, 0x00); (0x5B, 0x00); (0x5C, 0x00); (0x5D, 0x00); (0x5E, 0x00);
    (0x5F, 0x00); (0x60, 0x00); (0x61, 0x00); (0x62, 0x20); (0x63, 0x00); (0x64, 0x00);
    (0x65, 0x00); (0x66, 0x00); (0x67, 0x03); (0x68, 0x01); (0x69, 0x00); (0x6A, 0x00);
    (0x6B, 0xC0); (0x6C, 0x00); (0x6D, 0x00); (0x6E, 0x00); (0x6F, 0x00); (0x70, 0x00);
    (0x71, 0x00); (0x72, 0x00); (0x73, 0x10); (0x74, 0x04); (0x75, 0x01); (0x76, 0x00);
    (0x77, 0x3F); (0x78, 0xFF); (0x79, 0xFF); (0x7A, 0xFF); (0x7B, 0x1E); (0x7C, 0xC0);
    (0x7D, 0x00); (0x7E, 0x00); (0x7F, 0x00); (0x80, 0x00); (0x81, 0xC0); (0x82, 0x04);
    (0x83, 0x00); (0x84, 0x0C); (0x85, 0x02); (0x86, 0x03); (0x87, 0x63); (0x88, 0x5A);
    (0x89, 0x08); (0x8A, 0x10); (0x8B, 0x00); (0x8C, 0x40); (0x8D, 0x00); (0x8E, 0x40);
    (0x8F, 0x00); (0x90, 0x00); (0x91, 0x50); (0x92, 0x00); (0x93, 0x00); (0x94, 0x00);
    (0x95, 0x00); (0x96, 0x00); (0x97, 0xF0); (0x98, 0x00); (0x99, 0x00); (0x9A, 0x00);
    (0x9B, 0x00); (0x9C, 0x00); (0x9D, 0x00); (0x9E, 0x00); (0x9F, 0x00); (0xA0, 0x00);
    (0xA1, 0x00); (0xA2, 0x00); (0xA3, 0x00); (0xA4, 0x00); (0xA5, 0x00); (0xA6, 0x00);
    (0xA7, 0x00); (0xA8, 0x00); (0xA9, 0x00); (0xAA, 0x00); (0xAB, 0x00); (0xAC, 0x00);
    (0xAD, 0x00); (0xAE, 0x60); (0xAF, 0x00); (0xB0, 0x00); (0xB1, 0x60); (0xB2, 0x1C);
    (0xB3, 0x54); (0xB4, 0x00); (0xB5, 0x00); (0xB6, 0x00); (0xB7, 0x13); (0xB8, 0x03);
    (0xB9, 0x33); (0xBF, 0x02); (0xC0, 0x00); (0xC1, 0x00); (0xC2, 0x00); (0xC3, 0x00);
    (0xC4, 0x00); (0xC5, 0x81); (0xC6, 0x00); (0xC7, 0x00); (0xC8, 0x00); (0xC9, 0x04);
    (0xCC, 0x69); (0xCD, 0x00); (0xCE, 0x01); (0xCF, 0xB4); (0xD0, 0x00); (0xD1, 0x10);
    (0xD2, 0xFF); (0xD3, 0xFF); (0xD4, 0x7F); (0xD5, 0x7F); (0xD6, 0x3E); (0xD7, 0x08);
    (0xD8, 0x3C); (0xD9, 0x08); (0xDA, 0x3C); (0xDB, 0x9B); (0xDC, 0xAC); (0xDD, 0x4C);
    (0xDE, 0x00); (0xDF, 0x00); (0xE0, 0x14); (0xE1, 0x80); (0xE2, 0x80); (0xE3, 0x80);
    (0xE4, 0x80); (0xE5, 0x25); (0xE6, 0x44); (0xE7, 0x63); (0xE8, 0x65); (0xE9, 0x14);
    (0xEA, 0x63); (0xEB, 0x55); (0xEC, 0x55); (0xEE, 0x00); (0xEF, 0x4A); (0xF0, 0x44);
    (0xF1, 0x0C); (0xF2, 0x32); (0xF3, 0x00); (0xF4, 0x3F); (0xF5, 0xE0); (0xF6, 0x69);
    (0xF7, 0x10); (0xF8, 0x00); (0xF9, 0x03); (0xFA, 0xFA); (0xFB, 0x40)
  ].

(** ADV7180 Reset function: assert the reset bit (the result of that
    write is not looked at), wait, then write the program. *)
Definition adv7180_hard_reset (m : machine) : Z * machine :=
  let m := snd (adv7180_write_reg ADV7180_PWR_MNG 0x80 m) in
  let m := usleep_range 5000 5001 m in
  returning (bind (write_regs adv7180_hard_reset_writes) (fun _ => ret 0)) m.

(** Enable the SD_UNLOCK and SD_AD_CHNG interrupts. *)
Definition adv7180_enable_interrupts (m : machine) : Z * machine :=
  returning
    (bind (ADV7180_WRITE_REG 0x0E 0x20) (fun _ =>          (* interrupt register map *)
     bind (ADV7180_WRITE_REG ADV7180_INT_CONFIG_1 0xd1) (fun _ =>
     bind (ADV7180_WRITE_REG ADV7180_INT_MASK_1
             (Z.lor ADV7180_INT_SD_UNLOCK ADV7180_INT_SD_LOCK)) (fun _ =>
     bind (ADV7180_WRITE_REG ADV7180_INT_MASK_3
             (Z.lor ADV7180_INT_SD_AD_CHNG ADV7180_INT_SD_V_LOCK_CHNG)) (fun _ =>
     bind (ADV7180_WRITE_REG 0x0E 0x00) (fun _ =>          (* normal register map *)
     ret 0))))))
    m.

(** [adv7180_g_mbus_fmt], [adv7180_try_mbus_fmt] and
    [adv7180_s_mbus_fmt] have the same body: the caller's format is
    overwritten with the current one. *)
Definition adv7180_g_mbus_fmt (f : v4l2_mbus_framefmt) (m : machine)
  : (Z * v4l2_mbus_framefmt) * machine :=
  ((0, fmt (sensor m)), m).

Definition adv7180_try_mbus_fmt (f : v4l2_mbus_framefmt) (m : machine)
  : (Z * v4l2_mbus_framefmt) * machine :=
  ((0, fmt (sensor m)), m).

Definition adv7180_s_mbus_fmt (f : v4l2_mbus_framefmt) (m : machine)
  : (Z * v4l2_mbus_framefmt) * machine :=
  ((0, fmt (sensor m)), m).

Section Queries.
Context {hdr : kernel_headers} {v4l2 : v4l2_headers}.

Definition adv7180_enum_framesizes (fsize : v4l2_frmsizeenum) (m : machine)
  : (Z * v4l2_frmsizeenum) * machine :=
  if fs_index fsize >? 0 then ((- EINVAL, fsize), m)
  else
    ((0, {| fs_index := fs_index fsize;
            fs_type := V4L2_FRMSIZE_TYPE_DISCRETE;
            fs_discrete_width :=
              rect_width (crop (video_fmts_at (video_idx (sensor m))));
            fs_discrete_height :=
              rect_height (crop (video_fmts_at (video_idx (sensor m)))) |}),
     m).

Definition adv7180_g_crop (a : v4l2_crop) (m : machine)
  : (Z * v4l2_crop) * machine :=
  ((0, {| crop_type := V4L2_BUF_TYPE_VIDEO_CAPTURE;
          crop_c := crop (video_fmts_at (video_idx (sensor m))) |}),
   m).

(** [status] is the caller's variable behind the pointer. *)
Definition adv7180_g_input_status (status : Z) (m : machine)
  : (Z * Z) * machine :=
  let m := mutex_lock m in
  let status := 0 in
  let status :=
    if on (sensor m) then
      if negb (locked (sensor m))
      then Z.lor V4L2_IN_ST_NO_SIGNAL V4L2_IN_ST_NO_SYNC
      else status
    else V4L2_IN_ST_NO_POWER in
  let m := mutex_unlock m in
  ((0, status), m).

(** [code] is the caller's variable behind the pointer. *)
Definition adv7180_enum_mbus_fmt (index code : Z) (m : machine)
  : (Z * Z) * machine :=
  if negb (index =? 0) then ((- EINVAL, code), m)
  else ((0, fmt_code (fmt (sensor m))), m).

(** The frame format agrees with the table entry the standard index
    selects, and the index is one of the two the table has. *)
Definition geometry_ok (s : adv7180_dev) : bool :=
  ((video_idx s =? ADV7180_NTSC) || (video_idx s =? ADV7180_PAL))
  && (fmt_width (fmt s) =? rect_width (raw (video_fmts_at (video_idx s))))
  && (fmt_height (fmt s) =? rect_height (raw (video_fmts_at (video_idx s)))).

End Queries.

(** The last value a successful write put in register [reg0], if
    any. *)
Fixpoint last_write (reg0 : Z) (evs : list event) : option Z :=
  match evs with
  | [] => None
  | e :: rest =>
      match last_write reg0 rest with
      | Some v => Some v
      | None =>
          match e with
          | I2c (Wr reg value) 0 => if reg =? reg0 then Some value else None
          | _ => None
          end
      end
  end.

(** The acknowledged writes of a program, as trace events. *)
Definition acked_writes (program : list (Z * Z)) : list event :=
  map (fun p => I2c (Wr (fst p) (u8 (snd p))) 0) program.

(** A locked NTSC decoder whose chip fails every read of STATUS_1
    with [-EIO]. *)
Definition m_locked_nak_status1 : machine :=
  boot (set_locked true ntsc_sensor)
       (faulty_chip (is_read_of ADV7180_STATUS_1) EIO_neg
                    (status_regs 0x05 0x00 0x00 0x02)).

(** A locked decoder that has detected SECAM (code 5: PAL table index,
    720 x 625) and whose healthy chip now reports lock and code 7
    (SECAM 525) in STATUS_1. *)
Definition m_secam_then_525 : machine :=
  boot (set_fmt_size 720 625
          (set_std_id (V4L2_STD_SECAM (kernel_headers := linux_headers))
             (set_video_idx ADV7180_PAL (set_locked true ntsc_sensor))))
       (acking_chip (status_regs 0x75 0x00 0x00 0x02)).

(** An NTSC decoder whose chip refuses every write to SD Saturation Cr
    with [-EIO] and is healthy otherwise. *)
Definition m_nak_saturation_cr : machine :=
  boot ntsc_sensor
       (faulty_chip (is_write_of ADV7180_SD_SATURATION_CR) EIO_neg
                    (status_regs 0x05 0x00 0x00 0x02)).

(* ================================================================== *)
(** ** Integer and list facts *)

Lemma truthy_land_bit (a n : Z) :
  0 <= n -> truthy (Z.land a (Z.shiftl 1 n)) = Z.testbit a n.
Proof.
  intros Hn. rewrite Z.shiftl_1_l. unfold truthy.
  destruct (Z.testbit a n) eqn:Hb.
  - apply negb_true_iff, Z.eqb_neq. intros H0.
    assert (Hc : Z.testbit (Z.land a (2 ^ n)) n = true).
    { rewrite Z.land_spec, Hb, Z.pow2_bits_true by lia. reflexivity. }
    rewrite H0, Z.bits_0 in Hc. discriminate.
  - apply negb_false_iff, Z.eqb_eq. apply Z.bits_inj'. intros k Hk.
    rewrite Z.land_spec, Z.bits_0, Z.pow2_bits_eqb by lia.
    destruct (Z.eqb_spec n k) as [->|]; [rewrite Hb|]; auto using andb_false_r.
Qed.

Lemma u8_range (x : Z) : 0 <= u8 x < 256.
Proof. unfold u8. apply Z.mod_pos_bound. lia. Qed.

Lemma u8_u8 (x : Z) : u8 (u8 x) = u8 x.
Proof. unfold u8. apply Z.mod_mod. lia. Qed.

Lemma u8_testbit (x k : Z) : 0 <= k < 8 -> Z.testbit (u8 x) k = Z.testbit x k.
Proof.
  intros Hk. unfold u8. change 256 with (2 ^ 8).
  apply Z.mod_pow2_bits_low. lia.
Qed.

Lemma u8_neg_u8 (v : Z) : u8 (- u8 v) = u8 (- v).
Proof.
  unfold u8.
  rewrite <- (Z.sub_0_l (v mod 256)), <- (Z.sub_0_l v).
  rewrite Zminus_mod_idemp_r. reflexivity.
Qed.

Lemma neg8_is_u8_opp (v : Z) : neg8 v = u8 (- v).
Proof.
  unfold neg8, u8.
  replace (Z.lnot v + 1) with (- v) by (unfold Z.lnot; lia).
  change 0xFF with (Z.ones 8). rewrite Z.land_ones by lia. reflexivity.
Qed.

Lemma ltb_neg (v : Z) : v < 0 -> (v <? 0) = true.
Proof. intros. apply Z.ltb_lt. assumption. Qed.

Lemma ltb_nonneg (v : Z) : 0 <= v -> (v <? 0) = false.
Proof. intros. apply Z.ltb_ge. assumption. Qed.

Lemma truthy_nonzero (r : Z) : r <> 0 -> truthy r = true.
Proof. intros. unfold truthy. apply negb_true_iff, Z.eqb_neq. assumption. Qed.

Lemma skipn_length_app {A : Type} (l k : list A) :
  skipn (List.length l) (l ++ k) = k.
Proof. induction l; simpl; auto. Qed.

(* ================================================================== *)
(** ** Stepping through statements *)

Lemma bind_Next {A B : Type} (c : stmt A) (k : A -> stmt B) m a m' :
  c m = (Next a, m') -> bind c k m = k a m'.
Proof. unfold bind. intros ->. reflexivity. Qed.

Lemma bind_Return {A B : Type} (c : stmt A) (k : A -> stmt B) m r m' :
  c m = (Return r, m') -> bind c k m = (Return r, m').
Proof. unfold bind. intros ->. reflexivity. Qed.

Lemma emit_later (e : event) (m : machine) (s : adv7180_dev) (evs : list event) :
  emit e (later m s evs) = later m s (evs ++ [e]).
Proof. unfold emit, later. simpl. rewrite app_assoc. reflexivity. Qed.

Lemma later_nil (m : machine) : later m (sensor m) [] = m.
Proof. destruct m. unfold later. simpl. rewrite app_nil_r. reflexivity. Qed.

Lemma update_sensor_later f m s evs :
  update_sensor f (later m s evs) = later m (f s) evs.
Proof. reflexivity. Qed.

Lemma events_since_later m s evs : events_since m (later m s evs) = evs.
Proof. unfold events_since, later. simpl. apply skipn_length_app. Qed.

Lemma events_since_self m : events_since m m = [].
Proof. unfold events_since. apply skipn_all. Qed.

(** A read either fails with a negative code, which the macro returns,
    or delivers a byte; the transfer is on the trace either way. *)
Lemma READ_REG_cases (reg : Z) (m : machine) :
  exists v,
    chip m (trace m) (Rd reg) = v /\
    ((v < 0 /\ ADV7180_READ_REG reg m = (Return v, emit (I2c (Rd reg) v) m))
     \/ (0 <= v /\ ADV7180_READ_REG reg m = (Next (u8 v), emit (I2c (Rd reg) v) m))).
Proof.
  exists (chip m (trace m) (Rd reg)). split; [reflexivity|].
  unfold ADV7180_READ_REG, adv7180_read_reg, i2c_smbus_read_byte_data.
  cbv zeta. destruct (Z.ltb_spec (chip m (trace m) (Rd reg)) 0); auto.
Qed.

(** A write either returns non-zero, which the macro returns, or
    zero; the transfer is on the trace either way. *)
Lemma WRITE_REG_cases (reg value : Z) (m : machine) :
  exists r,
    chip m (trace m) (Wr reg (u8 value)) = r /\
    ((r <> 0 /\ ADV7180_WRITE_REG reg value m
                = (Return r, emit (I2c (Wr reg (u8 value)) r) m))
     \/ (r = 0 /\ ADV7180_WRITE_REG reg value m
                  = (Next tt, emit (I2c (Wr reg (u8 value)) 0) m))).
Proof.
  exists (chip m (trace m) (Wr reg (u8 value))). split; [reflexivity|].
  unfold ADV7180_WRITE_REG, adv7180_write_reg, i2c_smbus_write_byte_data, truthy.
  cbv zeta.
  destruct (Z.eqb_spec (chip m (trace m) (Wr reg (u8 value))) 0) as [E|E]; simpl.
  - right. rewrite E. auto.
  - left. auto.
Qed.

Ltac step_read v Hv :=
  match goal with
  | |- context [bind (ADV7180_READ_REG ?reg) ?k ?m] =>
      let E := fresh "E" in
      destruct (READ_REG_cases reg m) as [v [_ [[Hv E]|[Hv E]]]];
      [ rewrite (bind_Return _ k _ _ _ E)
      | rewrite (bind_Next _ k _ _ _ E); cbv beta ]
  end.

Ltac step_write r Hr :=
  match goal with
  | |- context [bind (ADV7180_WRITE_REG ?reg ?value) ?k ?m] =>
      let E := fresh "E" in
      destruct (WRITE_REG_cases reg value m) as [r [_ [[Hr E]|[Hr E]]]];
      [ rewrite (bind_Return _ k _ _ _ E)
      | rewrite (bind_Next _ k _ _ _ E); cbv beta ]
  end.

Ltac close_machine :=
  unfold emit, later, update_sensor; cbn [sensor chip trace];
  rewrite <- ?app_assoc; reflexivity.

(* ================================================================== *)
(** ** [adv7180_update_lock_status]: every way a call can end *)

Ltac fail_leaf pre :=
  right; exists pre; eexists; eexists;
  split; [cbv iota; f_equal; close_machine|];
  split; [first [assumption | lia]|];
  split; [simpl; first [apply ltb_neg | apply truthy_nonzero]; assumption|];
  split; [simpl; rewrite ?ltb_nonneg by assumption; reflexivity|];
  split; [reflexivity|];
  split; [intros Hx; simpl; try reflexivity
         |intros Hx; try reflexivity; try (vm_compute in Hx; discriminate Hx)].

(** A call either completes all eight transfers, stores the lock state
    and returns 0, or stops at the first transfer that fails, returns
    its code and leaves both the driver structure and the caller's flag
    alone. *)
Lemma update_lock_status_cases (sc : bool) (m : machine) :
  (exists v1 v2 v3 v4,
      0 <= v1 /\ 0 <= v2 /\ 0 <= v3 /\ 0 <= v4 /\
      adv7180_update_lock_status sc m =
      ((0, lock_status_change_of (u8 v2) (u8 v3)),
       later m (set_locked (locked_of (u8 v1) (u8 v4)) (sensor m))
               (lock_status_traffic v1 v2 v3 v4)))
  \/ (exists pre x r,
         adv7180_update_lock_status sc m =
         ((r, sc), later m (sensor m) (pre ++ [I2c x r])) /\
         r <> 0 /\
         i2c_failed (I2c x r) = true /\
         existsb i2c_failed pre = false /\
         existsb is_bank_restore pre = false /\
         (x <> Wr 0x0E 0 -> is_bank_restore (I2c x r) = false) /\
         (x = Wr 0x0E 0 -> List.length pre = 7%nat)).
Proof.
  unfold adv7180_update_lock_status, with_out.
  step_read v1 H1; [fail_leaf (@nil event)|].
  step_write r2 H2; [fail_leaf [I2c (Rd ADV7180_STATUS_1) v1]|].
  step_read v2 H3;
    [fail_leaf [I2c (Rd ADV7180_STATUS_1) v1; I2c (Wr 0x0E (u8 0x20)) 0]|].
  step_read v3 H4;
    [fail_leaf [I2c (Rd ADV7180_STATUS_1) v1; I2c (Wr 0x0E (u8 0x20)) 0;
                I2c (Rd ADV7180_INT_STATUS_1) v2]|].
  step_write r5 H5;
    [fail_leaf [I2c (Rd ADV7180_STATUS_1) v1; I2c (Wr 0x0E (u8 0x20)) 0;
                I2c (Rd ADV7180_INT_STATUS_1) v2; I2c (Rd ADV7180_INT_STATUS_3) v3]|].
  step_write r6 H6;
    [fail_leaf [I2c (Rd ADV7180_STATUS_1) v1; I2c (Wr 0x0E (u8 0x20)) 0;
                I2c (Rd ADV7180_INT_STATUS_1) v2; I2c (Rd ADV7180_INT_STATUS_3) v3;
                I2c (Wr ADV7180_INT_CLEAR_1 (u8 (u8 v2))) 0]|].
  step_read v4 H7;
    [fail_leaf [I2c (Rd ADV7180_STATUS_1) v1; I2c (Wr 0x0E (u8 0x20)) 0;
                I2c (Rd ADV7180_INT_STATUS_1) v2; I2c (Rd ADV7180_INT_STATUS_3) v3;
                I2c (Wr ADV7180_INT_CLEAR_1 (u8 (u8 v2))) 0;
                I2c (Wr ADV7180_INT_CLEAR_3 (u8 (u8 v3))) 0]|].
  step_write r8 H8.
  - fail_leaf [I2c (Rd ADV7180_STATUS_1) v1; I2c (Wr 0x0E (u8 0x20)) 0;
               I2c (Rd ADV7180_INT_STATUS_1) v2; I2c (Rd ADV7180_INT_STATUS_3) v3;
               I2c (Wr ADV7180_INT_CLEAR_1 (u8 (u8 v2))) 0;
               I2c (Wr ADV7180_INT_CLEAR_3 (u8 (u8 v3))) 0;
               I2c (Rd ADV7180_INT_RAW_STATUS_3) v4].
    exfalso. apply Hx. reflexivity.
  - left. exists v1, v2, v3, v4. repeat (split; [assumption|]).
    unfold bind, modify, ret. cbv iota beta. f_equal.
    unfold lock_status_traffic. rewrite !u8_u8.
    close_machine.
Qed.

Lemma lock_status_traffic_ok (v1 v2 v3 v4 : Z) :
  0 <= v1 -> 0 <= v2 -> 0 <= v3 -> 0 <= v4 ->
  existsb i2c_failed (lock_status_traffic v1 v2 v3 v4) = false.
Proof.
  intros. unfold lock_status_traffic. simpl.
  rewrite !ltb_nonneg by assumption. reflexivity.
Qed.

Lemma existsb_snoc {A : Type} (f : A -> bool) (l : list A) (a : A) :
  existsb f (l ++ [a]) = existsb f l || f a.
Proof. rewrite existsb_app. simpl. rewrite orb_false_r. reflexivity. Qed.

(* ================================================================== *)
(** ** Lock status on a healthy chip *)

Lemma READ_REG_acking (regs : Z -> Z) (reg : Z) (m : machine) :
  chip m = acking_chip regs ->
  ADV7180_READ_REG reg m
  = (Next (u8 (regs reg)), emit (I2c (Rd reg) (u8 (regs reg))) m).
Proof.
  intros Hc.
  unfold ADV7180_READ_REG, adv7180_read_reg, i2c_smbus_read_byte_data.
  cbv zeta. rewrite Hc. unfold acking_chip.
  rewrite ltb_nonneg by apply u8_range. rewrite u8_u8. reflexivity.
Qed.

Lemma WRITE_REG_acking (regs : Z -> Z) (reg value : Z) (m : machine) :
  chip m = acking_chip regs ->
  ADV7180_WRITE_REG reg value m
  = (Next tt, emit (I2c (Wr reg (u8 value)) 0) m).
Proof.
  intros Hc.
  unfold ADV7180_WRITE_REG, adv7180_write_reg, i2c_smbus_write_byte_data.
  cbv zeta. rewrite Hc. reflexivity.
Qed.

Ltac ack regs Hc :=
  match goal with
  | |- context [bind (ADV7180_READ_REG ?reg) ?k ?m] =>
      rewrite (bind_Next _ k _ _ _ (READ_REG_acking regs reg m Hc)); cbv beta
  | |- context [bind (ADV7180_WRITE_REG ?reg ?v) ?k ?m] =>
      rewrite (bind_Next _ k _ _ _ (WRITE_REG_acking regs reg v m Hc)); cbv beta
  end.

Lemma locked_of_bits (stat1 int_raw_stat3 : Z) :
  locked_of stat1 int_raw_stat3
  = Z.testbit stat1 0 && Z.testbit stat1 2 && Z.testbit int_raw_stat3 1.
Proof.
  unfold locked_of, ADV7180_IN_LOCK, ADV7180_FSC_LOCK, ADV7180_INT_SD_V_LOCK.
  rewrite !truthy_land_bit by lia. reflexivity.
Qed.

(** On any chip: a call that returns 0 has performed the complete
    traffic and stored the AND of the three bits of the bytes it read. *)
Lemma update_lock_status_success (sc : bool) (m : machine) :
  let '((r, sc'), m') := adv7180_update_lock_status sc m in
  r = 0 ->
  exists v1 v2 v3 v4,
    events_since m m' = lock_status_traffic v1 v2 v3 v4 /\
    locked (sensor m') = Z.testbit v1 0 && Z.testbit v1 2 && Z.testbit v4 1 /\
    sc' = lock_status_change_of (u8 v2) (u8 v3).
Proof.
  destruct (update_lock_status_cases sc m)
    as [(v1 & v2 & v3 & v4 & H1 & H2 & H3 & H4 & E)
       |(pre & x & r & E & Hr & _)]; rewrite E.
  - intros _. exists v1, v2, v3, v4.
    rewrite events_since_later. split; [reflexivity|]. split; [|reflexivity].
    cbn [later sensor set_locked locked].
    rewrite locked_of_bits, !u8_testbit by lia. reflexivity.
  - intros H0. contradiction.
Qed.

(** On a chip that acknowledges everything the call completes, and
    what it stores is read off the register file. *)
Lemma update_lock_status_acking (regs : Z -> Z) (sc : bool) (m : machine) :
  chip m = acking_chip regs ->
  adv7180_update_lock_status sc m =
  ((0, lock_status_change_of (u8 (regs ADV7180_INT_STATUS_1))
                             (u8 (regs ADV7180_INT_STATUS_3))),
   later m (set_locked (locked_of (u8 (regs ADV7180_STATUS_1))
                                  (u8 (regs ADV7180_INT_RAW_STATUS_3)))
                       (sensor m))
           (lock_status_traffic (u8 (regs ADV7180_STATUS_1))
                                (u8 (regs ADV7180_INT_STATUS_1))
                                (u8 (regs ADV7180_INT_STATUS_3))
                                (u8 (regs ADV7180_INT_RAW_STATUS_3)))).
Proof.
  intros Hc. unfold adv7180_update_lock_status, with_out.
  do 8 ack regs Hc.
  unfold bind, modify, ret. cbv iota beta. f_equal.
  unfold lock_status_traffic. rewrite !u8_u8. close_machine.
Qed.

(** C1: [adv7180_update_lock_status] sets [sensor->locked] to the AND
    of exactly three bits: IN_LOCK (bit 0) and FSC_LOCK (bit 2) of
    STATUS_1 (register 0x10) and SD_V_LOCK (bit 1) of Interrupt Raw
    Status 3 (register 0x49).  For every register file [regs] of a
    chip that acknowledges its transfers, whatever the driver structure,
    the trace so far and the caller's flag: the stored value is that
    AND; changing one of the three bits while the other two are set in
    both register files toggles it; and two register files that agree
    on the three bits give the same value, however they differ in any
    other bit of any register.  On any chip at all, a call that
    returns 0 has read STATUS_1 first and Interrupt Raw Status 3
    seventh and has stored the AND of those three bits of the two
    bytes read. *)
Theorem locked_is_and_of_three_status_bits
  (regs : Z -> Z) (s : adv7180_dev) (t : list event) (sc : bool) :
  let locked_after (f : Z -> Z) :=
    locked (sensor (snd (adv7180_update_lock_status sc
                           {| sensor := s; chip := acking_chip f; trace := t |}))) in
  let in_lock (f : Z -> Z) := Z.testbit (f ADV7180_STATUS_1) 0 in
  let fsc_lock (f : Z -> Z) := Z.testbit (f ADV7180_STATUS_1) 2 in
  let sd_v_lock (f : Z -> Z) := Z.testbit (f ADV7180_INT_RAW_STATUS_3) 1 in
  locked_after regs = in_lock regs && fsc_lock regs && sd_v_lock regs
  /\ (forall regs',
         in_lock regs' = negb (in_lock regs) ->
         fsc_lock regs = true -> fsc_lock regs' = true ->
         sd_v_lock regs = true -> sd_v_lock regs' = true ->
         locked_after regs' = negb (locked_after regs))
  /\ (forall regs',
         fsc_lock regs' = negb (fsc_lock regs) ->
         in_lock regs = true -> in_lock regs' = true ->
         sd_v_lock regs = true -> sd_v_lock regs' = true ->
         locked_after regs' = negb (locked_after regs))
  /\ (forall regs',
         sd_v_lock regs' = negb (sd_v_lock regs) ->
         in_lock regs = true -> in_lock regs' = true ->
         fsc_lock regs = true -> fsc_lock regs' = true ->
         locked_after regs' = negb (locked_after regs))
  /\ (forall regs',
         in_lock regs' = in_lock regs ->
         fsc_lock regs' = fsc_lock regs ->
         sd_v_lock regs' = sd_v_lock regs ->
         locked_after regs' = locked_after regs)
  /\ (forall m : machine,
         let '((r, _), m') := adv7180_update_lock_status sc m in
         r = 0 ->
         exists v1 v2 v3 v4,
           events_since m m' = lock_status_traffic v1 v2 v3 v4
           /\ locked (sensor m')
              = Z.testbit v1 0 && Z.testbit v1 2 && Z.testbit v4 1).
Proof.
  intros locked_after in_lock fsc_lock sd_v_lock.
  assert (Hany : forall m : machine,
             let '((r, _), m') := adv7180_update_lock_status sc m in
             r = 0 ->
             exists v1 v2 v3 v4,
               events_since m m' = lock_status_traffic v1 v2 v3 v4
               /\ locked (sensor m')
                  = Z.testbit v1 0 && Z.testbit v1 2 && Z.testbit v4 1).
  { intros m. pose proof (update_lock_status_success sc m) as H.
    destruct (adv7180_update_lock_status sc m) as [[r sc'] m'].
    intros Hr. destruct (H Hr) as (v1 & v2 & v3 & v4 & He & Hl & _).
    exists v1, v2, v3, v4. auto. }
  assert (Hall : forall f, locked_after f = in_lock f && fsc_lock f && sd_v_lock f).
  { intros f. unfold locked_after, in_lock, fsc_lock, sd_v_lock.
    rewrite (update_lock_status_acking f) by reflexivity.
    cbn [snd later sensor set_locked locked].
    rewrite locked_of_bits, !u8_testbit by lia. reflexivity. }
  split; [apply Hall|].
  split; [|split; [|split; [|split; [|exact Hany]]]];
    intros regs'; intros; rewrite !Hall;
    repeat match goal with H : _ = _ |- _ => rewrite H; clear H end;
    rewrite ?andb_true_r; reflexivity.
Qed.

(** C1 at concrete register contents: 0x05/0x02 locks; clearing
    IN_LOCK, FSC_LOCK or SD_V_LOCK alone unlocks; setting every other
    bit (0xFD/0xFF) changes nothing. *)
Lemma locked_is_and_of_three_status_bits_witness :
  locked (sensor (snd (adv7180_update_lock_status false (m_healthy 0x05 0x02)))) = true
  /\ locked (sensor (snd (adv7180_update_lock_status false (m_healthy 0x04 0x02)))) = false
  /\ locked (sensor (snd (adv7180_update_lock_status false (m_healthy 0x01 0x02)))) = false
  /\ locked (sensor (snd (adv7180_update_lock_status false (m_healthy 0x05 0x00)))) = false
  /\ locked (sensor (snd (adv7180_update_lock_status false (m_healthy 0xFD 0xFF)))) = true.
Proof.
  destruct (locked_is_and_of_three_status_bits
              (status_regs 0x05 0 0 0x02) ntsc_sensor [] false)
    as (Hand & Hin & Hfsc & Hv & Hother & _).
  split; [exact Hand|].
  split; [apply (Hin (status_regs 0x04 0 0 0x02)); reflexivity|].
  split; [apply (Hfsc (status_regs 0x01 0 0 0x02)); reflexivity|].
  split; [apply (Hv (status_regs 0x05 0 0 0x00)); reflexivity|].
  exact (eq_trans (Hother (status_regs 0xFD 0 0 0xFF) eq_refl eq_refl eq_refl) Hand).
Defined.

(* ================================================================== *)
(** ** Lock status on any chip: success and failure *)

(** C7: when any register read or write of
    [adv7180_update_lock_status] fails (equivalently, when the call
    returns non-zero), the value returned is the code of a failed
    transfer of this call, and nothing of the driver structure has
    been assigned: [sensor->locked] in particular keeps its prior
    value, and so does the caller's [status_change] flag. *)
Theorem update_lock_status_error_keeps_state (sc : bool) (m : machine) :
  let '((r, sc'), m') := adv7180_update_lock_status sc m in
  existsb i2c_failed (events_since m m') = true \/ r <> 0 ->
  r <> 0
  /\ (exists x, In (I2c x r) (events_since m m') /\ i2c_failed (I2c x r) = true)
  /\ sensor m' = sensor m
  /\ locked (sensor m') = locked (sensor m)
  /\ sc' = sc.
Proof.
  destruct (update_lock_status_cases sc m)
    as [(v1 & v2 & v3 & v4 & H1 & H2 & H3 & H4 & E)
       |(pre & x & r & E & Hr & Hx & _)]; rewrite E.
  - rewrite events_since_later, lock_status_traffic_ok by assumption.
    intros [H|H]; [discriminate H | contradiction H; reflexivity].
  - rewrite events_since_later. intros _.
    split; [assumption|]. split; [|auto].
    exists x. split; [|assumption].
    apply in_or_app. right. left. reflexivity.
Qed.

(** C7 on a locked decoder whose chip fails the read of Interrupt
    Status 1: [-EIO] comes back and the structure is as before. *)
Lemma update_lock_status_error_keeps_state_witness :
  fst (adv7180_update_lock_status true m_nak_int_status1) = (EIO_neg, true)
  /\ sensor (snd (adv7180_update_lock_status true m_nak_int_status1))
     = sensor m_nak_int_status1
  /\ locked (sensor (snd (adv7180_update_lock_status true m_nak_int_status1)))
     = true.
Proof.
  pose proof (update_lock_status_error_keeps_state true m_nak_int_status1) as H.
  destruct (adv7180_update_lock_status true m_nak_int_status1)
    as [[r sc'] m'] eqn:E.
  vm_compute in E. inversion E; subst r sc' m'; clear E.
  destruct H as (_ & _ & Hs & Hl & _); [left; reflexivity|].
  split; [reflexivity|]. split; [exact Hs | exact Hl].
Defined.

(** C6, amended: [adv7180_update_lock_status] stops at the first
    transfer that fails and returns that transfer's code; nothing
    follows it on the bus.  The write of 0x00 to register 0x0E that
    selects the normal register map is therefore issued only as the
    eighth transfer, after the seven before it succeeded: a call that
    fails anywhere else has not attempted it.  No later transfer can
    replace the error returned, because none is made. *)
Theorem update_lock_status_stops_at_first_failure (sc : bool) (m : machine) :
  let '((r, sc'), m') := adv7180_update_lock_status sc m in
  (r = 0 /\
   exists v1 v2 v3 v4,
     0 <= v1 /\ 0 <= v2 /\ 0 <= v3 /\ 0 <= v4 /\
     events_since m m' = lock_status_traffic v1 v2 v3 v4)
  \/ (r <> 0 /\
      exists pre x,
        events_since m m' = pre ++ [I2c x r] /\
        i2c_failed (I2c x r) = true /\
        existsb i2c_failed pre = false /\
        (x <> Wr 0x0E 0x00 ->
         existsb is_bank_restore (events_since m m') = false) /\
        (x = Wr 0x0E 0x00 ->
         existsb is_bank_restore pre = false /\ List.length pre = 7%nat)).
Proof.
  destruct (update_lock_status_cases sc m)
    as [(v1 & v2 & v3 & v4 & H1 & H2 & H3 & H4 & E)
       |(pre & x & r & E & Hr & Hx & Hpre & Hnr & Hxn & Hx7)]; rewrite E.
  - left. split; [reflexivity|]. exists v1, v2, v3, v4.
    rewrite events_since_later. auto.
  - right. split; [assumption|]. exists pre, x.
    rewrite events_since_later.
    split; [reflexivity|]. split; [assumption|]. split; [assumption|].
    split.
    + intros Hne. rewrite existsb_snoc, Hnr, (Hxn Hne). reflexivity.
    + intros He. auto.
Qed.

(** C6 as stated fails: the chip acknowledges the switch to the
    interrupt register map and then fails the read of Interrupt
    Status 1; the call returns [-EIO] and the trace ends there, with
    no write of 0x00 to register 0x0E. *)
Lemma restore_skipped_after_failed_interrupt_status_read :
  let m := m_nak_int_status1 in
  let '((r, sc'), m') := adv7180_update_lock_status false m in
  r = EIO_neg
  /\ events_since m m'
     = [ I2c (Rd ADV7180_STATUS_1) 0x05;
         I2c (Wr 0x0E 0x20) 0;
         I2c (Rd ADV7180_INT_STATUS_1) EIO_neg ]
  /\ existsb is_bank_switch (events_since m m') = true
  /\ existsb is_bank_restore (events_since m m') = false.
Proof. vm_compute. repeat split; reflexivity. Qed.

(** C6, amended, on that chip: the failed transfer is the last one of
    the call and the restore write is not among its transfers. *)
Lemma update_lock_status_stops_at_first_failure_witness :
  fst (fst (adv7180_update_lock_status false m_nak_int_status1)) = EIO_neg
  /\ existsb is_bank_restore
       (events_since m_nak_int_status1
          (snd (adv7180_update_lock_status false m_nak_int_status1))) = false.
Proof.
  pose proof (update_lock_status_stops_at_first_failure false m_nak_int_status1) as H.
  destruct (adv7180_update_lock_status false m_nak_int_status1)
    as [[r sc'] m'] eqn:E.
  vm_compute in E. inversion E; subst r sc' m'; clear E.
  split; [reflexivity|].
  destruct H as [[H0 _]|(_ & pre & x & Hev & _ & _ & Hne & _)];
    [discriminate H0|].
  apply Hne. intros ->.
  change (events_since _ _)
    with ([I2c (Rd 16) 5; I2c (Wr 14 32) 0] ++ [I2c (Rd 66) (-5)]) in Hev.
  apply app_inj_tail in Hev. destruct Hev as [_ Hev]. discriminate Hev.
Defined.

(* ================================================================== *)
(** ** The autodetected standard *)

Lemma ad_result_of_range (b : Z) : 0 <= ad_result_of b <= 7.
Proof.
  unfold ad_result_of, ADV7180_AD_RESULT_MASK, ADV7180_AD_RESULT_BIT.
  rewrite Z.shiftr_land.
  change (Z.shiftr (Z.shiftl 7 4) 4) with (Z.ones 3).
  rewrite Z.land_ones by lia.
  pose proof (Z.mod_pos_bound (Z.shiftr b 4) (2 ^ 3) ltac:(lia)). lia.
Qed.

(** [ad_result_of] extracts bits [6:4]: the value shifted right by
    four places, modulo eight. *)
Lemma ad_result_of_is_bits_6_4 (b : Z) : ad_result_of b = (b / 16) mod 8.
Proof.
  unfold ad_result_of, ADV7180_AD_RESULT_MASK, ADV7180_AD_RESULT_BIT.
  rewrite Z.shiftr_land.
  change (Z.shiftr (Z.shiftl 7 4) 4) with (Z.ones 3).
  rewrite Z.land_ones, Z.shiftr_div_pow2 by lia. reflexivity.
Qed.

(** The conversion of the value read to [u8] keeps bits [6:4]. *)
Lemma bits_6_4_of_u8 (v : Z) : (u8 v / 16) mod 8 = (v / 16) mod 8.
Proof.
  unfold u8.
  rewrite (Z.div_mod v 256) at 2 by lia.
  replace (256 * (v / 256) + v mod 256)
    with (v mod 256 + (v / 256 * 16) * 16) by lia.
  rewrite Z.div_add by lia.
  replace (v / 256 * 16) with (v / 256 * 2 * 8) by lia.
  rewrite Z.mod_add by lia. reflexivity.
Qed.

Lemma bits_6_4_testbit (v k : Z) :
  0 <= k < 3 -> Z.testbit ((v / 16) mod 8) k = Z.testbit v (k + 4).
Proof.
  intros Hk. change 8 with (2 ^ 3). change 16 with (2 ^ 4).
  rewrite Z.mod_pow2_bits_low by lia.
  rewrite Z.div_pow2_bits by lia. reflexivity.
Qed.

Section Autodetect.
Context {hdr : kernel_headers}.

(** Every row of the design document's table is what the switch
    computes. *)
Lemma ad_result_switch_rows (code std idx : Z) :
  In (code, (std, idx)) spec_autodetect_table ->
  ad_result_switch code = (std, idx).
Proof.
  unfold spec_autodetect_table. simpl.
  intros H.
  repeat (destruct H as [H|H]; [inversion H; subst; reflexivity|]).
  contradiction.
Qed.

(** Every 3-bit code has a row. *)
Lemma spec_autodetect_table_total (code : Z) :
  0 <= code <= 7 ->
  exists std idx, In (code, (std, idx)) spec_autodetect_table.
Proof.
  intros H.
  assert (Hc : code = 0 \/ code = 1 \/ code = 2 \/ code = 3 \/
               code = 4 \/ code = 5 \/ code = 6 \/ code = 7) by lia.
  unfold spec_autodetect_table.
  repeat (destruct Hc as [Hc|Hc]; [subst code; do 2 eexists; simpl; tauto|]).
  subst code; do 2 eexists; simpl; tauto.
Qed.

Lemma get_autodetect_std_unlocked (sc : bool) (m : machine) :
  locked (sensor m) = false ->
  adv7180_get_autodetect_std sc m = ((0, false), m).
Proof.
  intros Hl. unfold adv7180_get_autodetect_std, with_out, bind, get_sensor.
  rewrite Hl. reflexivity.
Qed.

(** What a call does on a locked decoder, by the answer [v] of the
    chip to the read of STATUS_1. *)
Lemma get_autodetect_std_locked (sc : bool) (m : machine) :
  locked (sensor m) = true ->
  let v := chip m (trace m) (Rd ADV7180_STATUS_1) in
  let std := fst (ad_result_switch (ad_result_of (u8 v))) in
  let idx := snd (ad_result_switch (ad_result_of (u8 v))) in
  adv7180_get_autodetect_std sc m =
  if v <? 0 then ((v, false), later m (sensor m) [I2c (Rd ADV7180_STATUS_1) v])
  else if std =? std_id (sensor m)
       then ((0, false), later m (sensor m) [I2c (Rd ADV7180_STATUS_1) v])
       else ((0, true),
             later m (set_fmt_size (rect_width (raw (video_fmts_at idx)))
                                   (rect_height (raw (video_fmts_at idx)))
                                   (set_std_id std (set_video_idx idx (sensor m))))
                     [I2c (Rd ADV7180_STATUS_1) v]).
Proof.
  intros Hl v std idx.
  unfold adv7180_get_autodetect_std, with_out.
  rewrite (bind_Next get_sensor _ m (sensor m) m eq_refl). cbv beta.
  rewrite Hl. cbn [negb].
  destruct (READ_REG_cases ADV7180_STATUS_1 m) as [v' [Ev [[Hv E]|[Hv E]]]];
    fold v in Ev; subst v'.
  - rewrite (bind_Return _ _ _ _ _ E), ltb_neg by assumption. reflexivity.
  - rewrite (bind_Next _ _ _ _ _ E), ltb_nonneg by assumption. cbv beta zeta.
    subst std idx.
    destruct (ad_result_switch (ad_result_of (u8 v))) as [std idx].
    cbn [fst snd].
    unfold bind, get_sensor, modify, ret. cbn [sensor emit].
    destruct (std =? std_id (sensor m)); cbn [negb]; reflexivity.
Qed.

(** C2: on a locked decoder whose read of STATUS_1 succeeds, let
    [code] be the value read divided by 16, modulo 8.  Then [code] is
    one of 0..7, its three bits are bits 4, 5 and 6 of the value read,
    and it is the autodetect result the driver extracts from the byte
    with ADV7180_AD_RESULT_MASK and ADV7180_AD_RESULT_BIT.  The code
    has a row in the table of the design document (0 NTSC,
    1 NTSC 4.43, 2 PAL-M, 3 PAL-60 and 7 SECAM with the NTSC table
    index; 4 PAL, 5 SECAM and 6 PAL-N with the PAL table index), the
    switch resolves the standard id and table index of that row, and
    [adv7180_get_autodetect_std] returns 0 with that standard id
    stored, reporting a change exactly when it differs from the one
    stored before, in which case the table index stored is the row's. *)
Theorem autodetect_code_mapping (sc : bool) (m : machine) (code : Z) :
  locked (sensor m) = true ->
  0 <= chip m (trace m) (Rd ADV7180_STATUS_1) ->
  code = (chip m (trace m) (Rd ADV7180_STATUS_1) / 16) mod 8 ->
  0 <= code <= 7
  /\ (forall k, 0 <= k < 3 ->
        Z.testbit code k
        = Z.testbit (chip m (trace m) (Rd ADV7180_STATUS_1)) (k + 4))
  /\ ad_result_of (u8 (chip m (trace m) (Rd ADV7180_STATUS_1))) = code
  /\ exists std idx,
      In (code, (std, idx)) spec_autodetect_table
      /\ ad_result_switch code = (std, idx)
      /\ let '((r, sc'), m') := adv7180_get_autodetect_std sc m in
         r = 0
         /\ std_id (sensor m') = std
         /\ sc' = negb (std =? std_id (sensor m))
         /\ (sc' = true -> video_idx (sensor m') = idx).
Proof.
  intros Hl Hv Hcode.
  assert (Hr : 0 <= code <= 7).
  { subst code.
    pose proof (Z.mod_pos_bound
                  (chip m (trace m) (Rd ADV7180_STATUS_1) / 16) 8 ltac:(lia)).
    lia. }
  assert (Had : ad_result_of (u8 (chip m (trace m) (Rd ADV7180_STATUS_1))) = code)
    by (rewrite ad_result_of_is_bits_6_4, bits_6_4_of_u8; symmetry; exact Hcode).
  split; [assumption|].
  split; [intros k Hk; rewrite Hcode; apply bits_6_4_testbit; exact Hk|].
  split; [exact Had|].
  destruct (spec_autodetect_table_total code Hr) as (std & idx & Hin).
  exists std, idx. split; [assumption|].
  pose proof (ad_result_switch_rows _ _ _ Hin) as Hsw.
  split; [assumption|].
  rewrite (get_autodetect_std_locked sc m Hl). cbv zeta.
  rewrite ltb_nonneg, Had, Hsw by assumption. cbn [fst snd].
  destruct (Z.eqb_spec std (std_id (sensor m))) as [Heq|Hne]; cbn [negb].
  - repeat split; auto. discriminate.
  - repeat split; auto.
Qed.

(** C3: while [sensor->locked] is false,
    [adv7180_get_autodetect_std] returns 0 with [*status_change]
    false and leaves the whole machine as it was, whatever the chip
    would answer: no transfer is added to the trace and no member of
    the driver structure changes, so the standard, its table index and
    the frame format last detected stay. *)
Theorem autodetect_noop_when_unlocked (sc : bool) (m : machine) :
  locked (sensor m) = false ->
  let '((r, sc'), m') := adv7180_get_autodetect_std sc m in
  r = 0 /\ sc' = false /\ m' = m
  /\ events_since m m' = []
  /\ std_id (sensor m') = std_id (sensor m)
  /\ video_idx (sensor m') = video_idx (sensor m)
  /\ fmt (sensor m') = fmt (sensor m).
Proof.
  intros Hl. rewrite (get_autodetect_std_unlocked sc m Hl).
  rewrite events_since_self. repeat split; reflexivity.
Qed.

(** C4: on a locked decoder whose read of STATUS_1 succeeds,
    [adv7180_get_autodetect_std] returns 0 and, with [(std, idx)] the
    standard id and table index resolved from the byte read: if [std]
    differs from the stored [std_id] it stores [idx], [std] and the raw
    width and height of [video_fmts[idx]], changes nothing else and
    reports a change; if [std] equals the stored [std_id] it reports no
    change and leaves the driver structure alone.  In particular, with
    NTSC stored and code 4 read, a change is reported, the standard
    becomes PAL and the frame 720 x 625. *)
Theorem autodetect_updates_on_change (sc : bool) (m : machine) :
  locked (sensor m) = true ->
  0 <= chip m (trace m) (Rd ADV7180_STATUS_1) ->
  let v := chip m (trace m) (Rd ADV7180_STATUS_1) in
  let std := fst (ad_result_switch (ad_result_of (u8 v))) in
  let idx := snd (ad_result_switch (ad_result_of (u8 v))) in
  let '((r, sc'), m') := adv7180_get_autodetect_std sc m in
  r = 0
  /\ (std <> std_id (sensor m) ->
      sc' = true
      /\ sensor m' = set_fmt_size (rect_width (raw (video_fmts_at idx)))
                                  (rect_height (raw (video_fmts_at idx)))
                                  (set_std_id std (set_video_idx idx (sensor m)))
      /\ std_id (sensor m') = std
      /\ video_idx (sensor m') = idx
      /\ fmt_width (fmt (sensor m')) = rect_width (raw (video_fmts_at idx))
      /\ fmt_height (fmt (sensor m')) = rect_height (raw (video_fmts_at idx)))
  /\ (std = std_id (sensor m) -> sc' = false /\ sensor m' = sensor m)
  /\ (std_id (sensor m) = V4L2_STD_NTSC ->
      V4L2_STD_PAL <> V4L2_STD_NTSC ->
      ad_result_of (u8 v) = ADV7180_AD_PAL ->
      sc' = true
      /\ std_id (sensor m') = V4L2_STD_PAL
      /\ fmt_width (fmt (sensor m')) = 720
      /\ fmt_height (fmt (sensor m')) = 625).
Proof.
  intros Hl Hv v std idx.
  rewrite (get_autodetect_std_locked sc m Hl). cbv zeta.
  fold v. rewrite ltb_nonneg by assumption. fold std. fold idx.
  destruct (Z.eqb_spec std (std_id (sensor m))) as [Heq|Hne].
  - split; [reflexivity|]. split; [intros Hc; contradiction|].
    split; [auto|].
    intros Hn Hd Hc. exfalso.
    subst std. rewrite Hc in Heq. cbn in Heq. congruence.
  - split; [reflexivity|]. split; [intros _; repeat split|].
    split; [intros Hc; contradiction|].
    intros Hn Hd Hc. subst std idx. rewrite Hc.
    repeat split.
Qed.

End Autodetect.

Ltac table_row H :=
  let Hsw := fresh "Hsw" in
  let Hrun := fresh "Hrun" in
  destruct H as (_ & _ & _ & ?std & ?idx & _ & Hsw & Hrun);
  [reflexivity | vm_compute; discriminate | reflexivity |];
  vm_compute in Hsw; inversion Hsw; subst; clear Hsw;
  match type of Hrun with
  | context [adv7180_get_autodetect_std ?sc ?m] =>
      destruct (adv7180_get_autodetect_std sc m) as [[?r ?c] ?m']
  end;
  destruct Hrun as (_ & Hrun & _); exact Hrun.

(** C2 on a locked NTSC decoder at the eight status bytes 0x05, 0x15,
    ..., 0x75, whose bits [6:4] run through the codes 0..7 while bits
    [2:0] stay 5: the standard stored afterwards is the row's. *)
Lemma autodetect_code_mapping_witness :
  std_id (sensor (snd (adv7180_get_autodetect_std (hdr := linux_headers)
                         false (m_locked 0x05))))
  = V4L2_STD_NTSC (kernel_headers := linux_headers)
  /\ std_id (sensor (snd (adv7180_get_autodetect_std (hdr := linux_headers)
                            false (m_locked 0x15))))
     = V4L2_STD_NTSC_443 (kernel_headers := linux_headers)
  /\ std_id (sensor (snd (adv7180_get_autodetect_std (hdr := linux_headers)
                            false (m_locked 0x25))))
     = V4L2_STD_PAL_M (kernel_headers := linux_headers)
  /\ std_id (sensor (snd (adv7180_get_autodetect_std (hdr := linux_headers)
                            false (m_locked 0x35))))
     = V4L2_STD_PAL_60 (kernel_headers := linux_headers)
  /\ std_id (sensor (snd (adv7180_get_autodetect_std (hdr := linux_headers)
                            false (m_locked 0x45))))
     = V4L2_STD_PAL (kernel_headers := linux_headers)
  /\ std_id (sensor (snd (adv7180_get_autodetect_std (hdr := linux_headers)
                            false (m_locked 0x55))))
     = V4L2_STD_SECAM (kernel_headers := linux_headers)
  /\ std_id (sensor (snd (adv7180_get_autodetect_std (hdr := linux_headers)
                            false (m_locked 0x65))))
     = V4L2_STD_PAL_N (kernel_headers := linux_headers)
  /\ std_id (sensor (snd (adv7180_get_autodetect_std (hdr := linux_headers)
                            false (m_locked 0x75))))
     = V4L2_STD_SECAM (kernel_headers := linux_headers).
Proof.
  split; [table_row (autodetect_code_mapping (hdr := linux_headers)
                       false (m_locked 0x05) 0)|].
  split; [table_row (autodetect_code_mapping (hdr := linux_headers)
                       false (m_locked 0x15) 1)|].
  split; [table_row (autodetect_code_mapping (hdr := linux_headers)
                       false (m_locked 0x25) 2)|].
  split; [table_row (autodetect_code_mapping (hdr := linux_headers)
                       false (m_locked 0x35) 3)|].
  split; [table_row (autodetect_code_mapping (hdr := linux_headers)
                       false (m_locked 0x45) 4)|].
  split; [table_row (autodetect_code_mapping (hdr := linux_headers)
                       false (m_locked 0x55) 5)|].
  split; [table_row (autodetect_code_mapping (hdr := linux_headers)
                       false (m_locked 0x65) 6)|].
  table_row (autodetect_code_mapping (hdr := linux_headers)
               false (m_locked 0x75) 7).
Defined.

(** C3 on an unlocked decoder whose chip reports lock and code 4. *)
Lemma autodetect_noop_when_unlocked_witness :
  adv7180_get_autodetect_std (hdr := linux_headers) true (m_healthy 0x45 0x02)
  = ((0, false), m_healthy 0x45 0x02).
Proof.
  pose proof (autodetect_noop_when_unlocked (hdr := linux_headers)
                true (m_healthy 0x45 0x02) eq_refl) as H.
  destruct (adv7180_get_autodetect_std true (m_healthy 0x45 0x02))
    as [[r sc'] m'].
  destruct H as (-> & -> & -> & _). reflexivity.
Defined.

(** C4 on a locked NTSC decoder that reads code 4 (PAL). *)
Lemma autodetect_updates_on_change_witness :
  snd (fst (adv7180_get_autodetect_std (hdr := linux_headers) false (m_locked 0x45)))
  = true
  /\ std_id (sensor (snd (adv7180_get_autodetect_std (hdr := linux_headers)
                            false (m_locked 0x45))))
     = V4L2_STD_PAL (kernel_headers := linux_headers)
  /\ fmt_width (fmt (sensor (snd (adv7180_get_autodetect_std (hdr := linux_headers)
                                    false (m_locked 0x45))))) = 720
  /\ fmt_height (fmt (sensor (snd (adv7180_get_autodetect_std (hdr := linux_headers)
                                     false (m_locked 0x45))))) = 625.
Proof.
  pose proof (autodetect_updates_on_change (hdr := linux_headers)
                false (m_locked 0x45) eq_refl) as H.
  cbv zeta in H.
  destruct (adv7180_get_autodetect_std false (m_locked 0x45)) as [[r sc'] m'].
  cbn [fst snd].
  destruct H as (_ & _ & _ & H); [vm_compute; discriminate|].
  apply H; [reflexivity | vm_compute; discriminate | reflexivity].
Defined.

(* ================================================================== *)
(** ** Power and controls *)

Section Controls.
Context {hdr : kernel_headers}.

Lemma set_on_same (s : adv7180_dev) : set_on (on s) s = s.
Proof. destruct s. reflexivity. Qed.

Lemma update_sensor_same (m : machine) (b : bool) :
  b = on (sensor m) -> update_sensor (set_on b) m = m.
Proof.
  intros ->. destruct m as [s c t]. unfold update_sensor. cbn [sensor chip trace].
  rewrite set_on_same. reflexivity.
Qed.

(** C10: [adv7180_power] called with [enable] equal to [sensor->on]
    returns the machine it was given: nothing is written, the
    power-down line is not driven, no member changes.  Turning on from
    off drives the power-down line high when there is one, sleeps
    5000..5001 us and then writes 0x00 to Power Management; turning
    off from on writes 0x24 to Power Management and then drives the
    line low when there is one; in both cases [sensor->on] becomes
    [enable] and nothing else of the structure changes. *)
Theorem power_touches_hardware_only_on_transition (m : machine) (enable : bool) :
  let m' := adv7180_power enable m in
  let gpio := pwdn_gpio (sensor m) in
  (enable = on (sensor m) -> m' = m /\ events_since m m' = [])
  /\ (enable = true -> on (sensor m) = false ->
      exists rc,
        m' = later m (set_on true (sensor m))
                   ((if gpio_is_valid gpio then [GpioSet gpio 1] else [])
                    ++ [Usleep 5000 5001; I2c (Wr ADV7180_PWR_MNG 0x00) rc]))
  /\ (enable = false -> on (sensor m) = true ->
      exists rc,
        m' = later m (set_on false (sensor m))
                   (I2c (Wr ADV7180_PWR_MNG 0x24) rc
                    :: (if gpio_is_valid gpio then [GpioSet gpio 0] else []))).
Proof.
  cbv zeta. split; [|split].
  - intros He.
    assert (Hm : adv7180_power enable m = m).
    { unfold adv7180_power. rewrite <- He.
      destruct enable; cbn [andb negb]; apply update_sensor_same; assumption. }
    rewrite Hm, events_since_self. auto.
  - intros -> Hoff. unfold adv7180_power. rewrite Hoff. cbn [andb negb].
    unfold adv7180_write_reg, i2c_smbus_write_byte_data, usleep_range,
      gpio_set_value_cansleep. cbv zeta. cbn [snd].
    destruct (gpio_is_valid (pwdn_gpio (sensor m)));
      eexists; close_machine.
  - intros -> Hon. unfold adv7180_power. rewrite Hon. cbn [andb negb].
    unfold adv7180_write_reg, i2c_smbus_write_byte_data,
      gpio_set_value_cansleep. cbv zeta. cbn [snd emit sensor].
    destruct (gpio_is_valid (pwdn_gpio (sensor m)));
      eexists; close_machine.
Qed.

Lemma neg8_range (v : Z) : 0 <= neg8 v < 256.
Proof. rewrite neg8_is_u8_opp. apply u8_range. Qed.

Lemma neg8_cancels (v : Z) : (neg8 v + v) mod 256 = 0.
Proof.
  rewrite neg8_is_u8_opp. unfold u8.
  rewrite Zplus_mod_idemp_l. replace (- v + v) with 0 by lia. reflexivity.
Qed.

(** C9: for a requested hue in [-127, 128], the setter issues exactly
    one transfer, a write to the hue register 0x0B of the 8-bit
    two's-complement negation of the value (a byte that added to the
    value gives 0 modulo 256), and, when the bus accepts the write,
    returns 0 with the requested value itself in [sensor->hue] and no
    other member changed; when the bus refuses it, the code comes back
    and the structure is untouched.  (The range is the one the control
    is registered with; the proof does not need it.) *)
Theorem hue_write_is_negated (m : machine) (v : Z) :
  -127 <= v <= 128 ->
  let '(r, m') := adv7180_s_ctrl {| id := V4L2_CID_HUE; val := v |} m in
  exists rc,
    events_since m m' = [I2c (Wr ADV7180_HUE_REG (neg8 v)) rc]
    /\ 0 <= neg8 v < 256
    /\ (neg8 v + v) mod 256 = 0
    /\ r = rc
    /\ (rc = 0 -> hue (sensor m') = v /\ sensor m' = set_hue v (sensor m))
    /\ (rc <> 0 -> sensor m' = sensor m).
Proof.
  intros _. unfold adv7180_s_ctrl. cbn [id val].
  step_write rc Hrc.
  - exists rc. rewrite u8_neg_u8, <- neg8_is_u8_opp.
    change (emit ?e m) with (later m (sensor m) [e]).
    rewrite events_since_later.
    split; [reflexivity|]. split; [apply neg8_range|].
    split; [apply neg8_cancels|]. split; [reflexivity|].
    split; [intros H0; contradiction | intros _; reflexivity].
  - unfold bind, modify, ret. cbv iota beta.
    exists 0. rewrite u8_neg_u8, <- neg8_is_u8_opp.
    change (update_sensor ?f (emit ?e m)) with (later m (f (sensor m)) [e]).
    rewrite events_since_later.
    split; [reflexivity|]. split; [apply neg8_range|].
    split; [apply neg8_cancels|]. split; [reflexivity|].
    split; [intros _; split; reflexivity | intros H0; contradiction H0; reflexivity].
Qed.

(** X10: a control setter that had a transfer fail returns non-zero
    and has not touched the driver structure, whatever the control:
    the mirrored value is stored only after every write of the setter
    was accepted. *)
Lemma s_ctrl_failed_write_keeps_mirror (ctrl : v4l2_ctrl) (m : machine) :
  let '(r, m') := adv7180_s_ctrl ctrl m in
  existsb i2c_failed (events_since m m') = true ->
  r <> 0 /\ sensor m' = sensor m.
Proof.
  unfold adv7180_s_ctrl. destruct ctrl as [cid v]. cbn [id val].
  destruct cid;
    try (unfold ret; rewrite events_since_self; intros H; discriminate H).
  - step_write rc Hrc.
    + intros _. split; [assumption | reflexivity].
    + unfold bind, modify, ret. cbv iota beta.
      change (update_sensor ?f (emit ?e m)) with (later m (f (sensor m)) [e]).
      rewrite events_since_later. intros H; discriminate H.
  - step_write rc Hrc.
    + intros _. split; [assumption | reflexivity].
    + unfold bind, modify, ret. cbv iota beta.
      change (update_sensor ?f (emit ?e m)) with (later m (f (sensor m)) [e]).
      rewrite events_since_later. intros H; discriminate H.
  - step_write rc Hrc; [|step_write rc2 Hrc2].
    + intros _. split; [assumption | reflexivity].
    + intros _. split; [assumption | reflexivity].
    + unfold bind, modify, ret. cbv iota beta.
      change (emit ?e m) with (later m (sensor m) [e]).
      rewrite emit_later, update_sensor_later, events_since_later.
      intros H; discriminate H.
  - step_write rc Hrc.
    + intros _. split; [assumption | reflexivity].
    + unfold bind, modify, ret. cbv iota beta.
      change (update_sensor ?f (emit ?e m)) with (later m (f (sensor m)) [e]).
      rewrite events_since_later. intros H; discriminate H.
Qed.

(** The selectors of the input table are 0..10. *)
Lemma find_input_none (input : Z) :
  adv7180_find_input input = None <-> ~ (0 <= input <= 10).
Proof.
  unfold adv7180_find_input, adv7180_inputs_64_48. cbn [find insel].
  split.
  - intros H Hr.
    assert (Hc : input = 0 \/ input = 1 \/ input = 2 \/ input = 3 \/
                 input = 4 \/ input = 5 \/ input = 6 \/ input = 7 \/
                 input = 8 \/ input = 9 \/ input = 10) by lia.
    repeat (destruct Hc as [Hc|Hc]; [subst input; discriminate H|]).
    subst input; discriminate H.
  - intros Hr.
    repeat match goal with
           | |- context [?a =? ?b] =>
               destruct (Z.eqb_spec a b); [exfalso; lia|]
           end.
    reflexivity.
Qed.

(** A selector outside the input table is refused with [-EINVAL]
    and the machine is left as it was. *)
Lemma s_routing_rejects_unknown (input output config : Z) (m : machine) :
  ~ (0 <= input <= 10) ->
  adv7180_s_routing input output config m = (- EINVAL, m).
Proof.
  intros H. unfold adv7180_s_routing.
  rewrite (proj2 (find_input_none input) H). reflexivity.
Qed.

(** A selector of the table is written to Input Control under the
    mutex and recorded in [current_input] whatever the bus returned;
    the call returns 0. *)
Lemma s_routing_known (input output config : Z) (m : machine) :
  0 <= input <= 10 ->
  exists rc,
    adv7180_s_routing input output config m =
    (0, later m (set_current_input input (sensor m))
              [MutexLock; I2c (Wr ADV7180_INPUT_CTL input) rc; MutexUnlock]).
Proof.
  intros Hr.
  assert (Hc : input = 0 \/ input = 1 \/ input = 2 \/ input = 3 \/
               input = 4 \/ input = 5 \/ input = 6 \/ input = 7 \/
               input = 8 \/ input = 9 \/ input = 10) by lia.
  unfold adv7180_s_routing, adv7180_write_reg, i2c_smbus_write_byte_data,
    mutex_lock, mutex_unlock.
  repeat (destruct Hc as [Hc|Hc];
          [subst input; eexists; cbn [adv7180_find_input find adv7180_inputs_64_48
                                        insel Z.eqb Pos.eqb];
           cbv zeta; cbn [snd]; f_equal; close_machine|]).
  subst input; eexists; cbn [adv7180_find_input find adv7180_inputs_64_48
                               insel Z.eqb Pos.eqb];
    cbv zeta; cbn [snd]; f_equal; close_machine.
Qed.

End Controls.

(** C9 at hue -127 on a healthy chip: 127 is written to register
    0x0B and -127 is what the structure keeps. *)
Lemma hue_write_is_negated_witness :
  events_since (m_healthy 0x05 0x02)
    (snd (adv7180_s_ctrl (hdr := linux_headers)
            {| id := V4L2_CID_HUE; val := -127 |} (m_healthy 0x05 0x02)))
  = [I2c (Wr 0x0b 127) 0]
  /\ hue (sensor (snd (adv7180_s_ctrl (hdr := linux_headers)
                         {| id := V4L2_CID_HUE; val := -127 |}
                         (m_healthy 0x05 0x02)))) = -127.
Proof.
  pose proof (hue_write_is_negated (hdr := linux_headers)
                (m_healthy 0x05 0x02) (-127) ltac:(lia)) as H.
  destruct (adv7180_s_ctrl {| id := V4L2_CID_HUE; val := -127 |}
              (m_healthy 0x05 0x02)) as [r m'] eqn:E.
  vm_compute in E. inversion E; subst r m'; clear E.
  destruct H as (rc & Hev & _ & _ & Hr & Hok & _).
  cbn [snd]. split.
  - rewrite Hev. rewrite <- Hr. reflexivity.
  - apply Hok. symmetry. exact Hr.
Defined.

(** C10 on a powered decoder: powering on again changes nothing, and
    powering off writes 0x24 to Power Management. *)
Lemma power_touches_hardware_only_on_transition_witness :
  adv7180_power (hdr := linux_headers) true (m_healthy 0x05 0x02)
  = m_healthy 0x05 0x02
  /\ events_since (m_healthy 0x05 0x02)
       (adv7180_power (hdr := linux_headers) false (m_healthy 0x05 0x02))
     = [I2c (Wr ADV7180_PWR_MNG 0x24) 0].
Proof.
  split.
  - apply (power_touches_hardware_only_on_transition (hdr := linux_headers)
             (m_healthy 0x05 0x02) true). reflexivity.
  - destruct (power_touches_hardware_only_on_transition (hdr := linux_headers)
                (m_healthy 0x05 0x02) false) as (_ & _ & Hoff).
    destruct (Hoff eq_refl eq_refl) as [rc Hm].
    assert (Hrc : rc = 0).
    { apply (f_equal trace) in Hm. vm_compute in Hm. inversion Hm. reflexivity. }
    rewrite Hm, events_since_later, Hrc. reflexivity.
Defined.

(* ================================================================== *)
(** ** The interrupt handler *)

Lemma bus_only_ret {A : Type} (a : A) : bus_only (ret a).
Proof. intros m. exists []. rewrite app_nil_r. auto. Qed.

Lemma bus_only_return {A : Type} (r : Z) : bus_only (@return_ A r).
Proof. intros m. exists []. rewrite app_nil_r. auto. Qed.

Lemma bus_only_get_sensor : bus_only get_sensor.
Proof. intros m. exists []. rewrite app_nil_r. auto. Qed.

Lemma bus_only_modify (f : adv7180_dev -> adv7180_dev) : bus_only (modify f).
Proof. intros m. exists []. simpl. rewrite app_nil_r. auto. Qed.

Lemma bus_only_READ_REG (reg : Z) : bus_only (ADV7180_READ_REG reg).
Proof.
  intros m. exists [I2c (Rd reg) (chip m (trace m) (Rd reg))].
  unfold ADV7180_READ_REG, adv7180_read_reg, i2c_smbus_read_byte_data.
  cbv zeta. destruct (_ <? 0); auto.
Qed.

Lemma bus_only_WRITE_REG (reg value : Z) : bus_only (ADV7180_WRITE_REG reg value).
Proof.
  intros m. exists [I2c (Wr reg (u8 value)) (chip m (trace m) (Wr reg (u8 value)))].
  unfold ADV7180_WRITE_REG, adv7180_write_reg, i2c_smbus_write_byte_data.
  cbv zeta. destruct (truthy _); auto.
Qed.

Lemma bus_only_bind {A B : Type} (c : stmt A) (k : A -> stmt B) :
  bus_only c -> (forall a, bus_only (k a)) -> bus_only (bind c k).
Proof.
  intros Hc Hk m. unfold bind.
  destruct (Hc m) as (evs1 & Ht1 & Hc1 & Hi1).
  destruct (c m) as [[a|r] m1]; cbn [snd] in *.
  - destruct (Hk a m1) as (evs2 & Ht2 & Hc2 & Hi2).
    exists (evs1 ++ evs2).
    rewrite Ht2, Ht1, Hc2, Hc1, app_assoc, forallb_app, Hi1, Hi2. auto.
  - exists evs1. auto.
Qed.

Lemma bus_only_if {A : Type} (b : bool) (c1 c2 : stmt A) :
  bus_only c1 -> bus_only c2 -> bus_only (if b then c1 else c2).
Proof. destruct b; auto. Qed.

Lemma with_out_snd (stored : bool) (body : stmt bool) (m : machine) :
  snd (with_out stored body m) = snd (body m).
Proof. unfold with_out. destruct (body m) as [[b|r] m']; reflexivity. Qed.

Create HintDb bus discriminated.
#[local] Hint Resolve bus_only_ret bus_only_return bus_only_get_sensor
  bus_only_modify bus_only_READ_REG bus_only_WRITE_REG bus_only_if : bus.

Ltac bus_only_tac :=
  repeat first
    [ apply bus_only_bind; [|intros ?]
    | apply bus_only_if
    | match goal with
      | |- bus_only (let (_, _) := ?p in _) => destruct p
      end
    | solve [auto with bus] ].

Lemma update_lock_status_bus_only (sc : bool) (m : machine) :
  exists evs,
    trace (snd (adv7180_update_lock_status sc m)) = trace m ++ evs
    /\ chip (snd (adv7180_update_lock_status sc m)) = chip m
    /\ forallb is_i2c evs = true.
Proof.
  unfold adv7180_update_lock_status. rewrite with_out_snd.
  match goal with
  | |- context [snd (?c m)] =>
      assert (H : bus_only c) by bus_only_tac; exact (H m)
  end.
Qed.

Section Interrupt.
Context {hdr : kernel_headers}.

Lemma get_autodetect_std_bus_only (sc : bool) (m : machine) :
  exists evs,
    trace (snd (adv7180_get_autodetect_std sc m)) = trace m ++ evs
    /\ chip (snd (adv7180_get_autodetect_std sc m)) = chip m
    /\ forallb is_i2c evs = true.
Proof.
  unfold adv7180_get_autodetect_std. rewrite with_out_snd.
  match goal with
  | |- context [snd (?c m)] =>
      assert (H : bus_only c) by bus_only_tac; exact (H m)
  end.
Qed.

Lemma i2c_is_not_notify (evs : list event) :
  forallb is_i2c evs = true -> filter is_notify evs = [].
Proof.
  induction evs as [|e evs IH]; [reflexivity|].
  cbn [forallb filter]. intros H. apply andb_true_iff in H. destruct H as [He Hr].
  destruct e; try discriminate He. cbn [is_notify]. auto.
Qed.

(** What the handler leaves on the trace: the mutex is taken, the two
    refresh calls talk to the chip, the mutex is released, and only
    then, when one of the two flags is set, one notification goes
    out. *)
Lemma interrupt_trace (std_change lock_status_change : bool) (m : machine) :
  let '((r1, lsc), m1) :=
    adv7180_update_lock_status lock_status_change (mutex_lock m) in
  let '((r2, sc), m2) := adv7180_get_autodetect_std std_change m1 in
  let '(r, m') := adv7180_interrupt std_change lock_status_change m in
  r = IRQ_HANDLED
  /\ sensor m' = sensor m2
  /\ exists evs,
      forallb is_i2c evs = true
      /\ events_since m m'
         = MutexLock :: evs ++ MutexUnlock :: (if lsc || sc then [Notify] else [])
      /\ notifications (events_since m m') = (if lsc || sc then 1%nat else 0%nat).
Proof.
  unfold adv7180_interrupt.
  destruct (update_lock_status_bus_only lock_status_change (mutex_lock m))
    as (evs1 & Ht1 & _ & Hi1).
  destruct (adv7180_update_lock_status lock_status_change (mutex_lock m))
    as [[r1 lsc] m1].
  destruct (get_autodetect_std_bus_only std_change m1) as (evs2 & Ht2 & _ & Hi2).
  destruct (adv7180_get_autodetect_std std_change m1) as [[r2 sc] m2].
  cbn [snd] in *. cbv zeta.
  split; [reflexivity|].
  split; [destruct (lsc || sc); reflexivity|].
  exists (evs1 ++ evs2).
  assert (Hi : forallb is_i2c (evs1 ++ evs2) = true)
    by (rewrite forallb_app, Hi1, Hi2; reflexivity).
  split; [assumption|].
  assert (Hev : events_since m
                  (if lsc || sc then v4l2_subdev_notify (mutex_unlock m2)
                   else mutex_unlock m2)
                = MutexLock :: (evs1 ++ evs2)
                    ++ MutexUnlock :: (if lsc || sc then [Notify] else [])).
  { unfold events_since.
    assert (Htr : trace (if lsc || sc then v4l2_subdev_notify (mutex_unlock m2)
                         else mutex_unlock m2)
                  = trace m ++ MutexLock :: (evs1 ++ evs2)
                      ++ MutexUnlock :: (if lsc || sc then [Notify] else [])).
    { destruct (lsc || sc);
        unfold v4l2_subdev_notify, mutex_unlock, mutex_lock, emit in *;
        cbn [trace] in *; rewrite Ht2, Ht1; rewrite <- !app_assoc; reflexivity. }
    rewrite Htr. apply skipn_length_app. }
  split; [exact Hev|].
  rewrite Hev. unfold notifications. cbn [filter is_notify].
  rewrite filter_app, (i2c_is_not_notify _ Hi). cbn [app filter is_notify].
  destruct (lsc || sc); reflexivity.
Qed.

End Interrupt.



(* ================================================================== *)
(** ** The synchronous query *)

Section Query.
Context {hdr : kernel_headers}.

(** X18: polling through [adv7180_querystd] (no irq line): when the
    lock refresh succeeds and finds the decoder unlocked, the call
    returns 0 with the standard stored before, and standard, table
    index and frame format stay as they were. *)
Lemma querystd_keeps_standard_while_unlocked (std : Z) (m : machine) :
  irq (sensor m) = 0 ->
  fst (fst (adv7180_update_lock_status false (mutex_lock m))) = 0 ->
  locked (sensor (snd (adv7180_update_lock_status false (mutex_lock m)))) = false ->
  let '((r, std'), m') := adv7180_querystd std m in
  r = 0
  /\ std' = std_id (sensor m)
  /\ std_id (sensor m') = std_id (sensor m)
  /\ video_idx (sensor m') = video_idx (sensor m)
  /\ fmt (sensor m') = fmt (sensor m).
Proof.
  intros Hirq. unfold adv7180_querystd.
  change (irq (sensor (mutex_lock m))) with (irq (sensor m)). rewrite Hirq.
  cbn [truthy Z.eqb negb].
  destruct (update_lock_status_cases false (mutex_lock m))
    as [(v1 & v2 & v3 & v4 & _ & _ & _ & _ & E)|(pre & x & r & E & Hr & _)];
    rewrite E; cbn [fst snd].
  - intros _ Hl. cbn [truthy Z.eqb negb].
    rewrite (get_autodetect_std_unlocked false _ Hl).
    cbn [truthy Z.eqb negb]. repeat split; reflexivity.
  - intros H0. contradiction.
Qed.

(** An error of the lock refresh is returned by [adv7180_querystd],
    and the caller's [std] is left alone. *)
Lemma querystd_surfaces_lock_status_error (std : Z) (m : machine) :
  irq (sensor m) = 0 ->
  fst (fst (adv7180_update_lock_status false (mutex_lock m))) <> 0 ->
  fst (adv7180_querystd std m)
  = (fst (fst (adv7180_update_lock_status false (mutex_lock m))), std).
Proof.
  intros Hirq. unfold adv7180_querystd.
  change (irq (sensor (mutex_lock m))) with (irq (sensor m)). rewrite Hirq.
  cbn [truthy Z.eqb negb].
  destruct (adv7180_update_lock_status false (mutex_lock m)) as [[r sc] m1].
  cbn [fst snd]. intros Hr. rewrite (truthy_nonzero r Hr). reflexivity.
Qed.

End Query.

(* ================================================================== *)
(** ** The defects, on concrete machines *)

(** C5 at an interrupt during which the chip fails the read of
    STATUS_1: [adv7180_update_lock_status] returns [-EIO] and does not
    store to its flag, [adv7180_get_autodetect_std] stores false to
    its own, so neither call reports a change; the handler ignores the
    error and tests the flag all the same.  With a set bit left in the
    stack slot of [lock_status_change] a notification goes out; with a
    clear one it does not. *)
Theorem interrupt_notifies_from_unwritten_flag :
  (forall b, fst (adv7180_update_lock_status b (mutex_lock m_nak_status1))
             = (EIO_neg, b))
  /\ (forall b b',
         fst (adv7180_get_autodetect_std (hdr := linux_headers) b'
                (snd (adv7180_update_lock_status b (mutex_lock m_nak_status1))))
         = (0, false))
  /\ events_since m_nak_status1
       (snd (adv7180_interrupt (hdr := linux_headers) false true m_nak_status1))
     = [MutexLock; I2c (Rd ADV7180_STATUS_1) EIO_neg; MutexUnlock; Notify]
  /\ events_since m_nak_status1
       (snd (adv7180_interrupt (hdr := linux_headers) false false m_nak_status1))
     = [MutexLock; I2c (Rd ADV7180_STATUS_1) EIO_neg; MutexUnlock].
Proof.
  split; [intros []; reflexivity|].
  split; [intros [] []; reflexivity|].
  split; reflexivity.
Qed.

(** C8 at a routing request whose write to Input Control the chip
    refuses: [adv7180_s_routing] ignores what [adv7180_write_reg]
    returned, records the selector in [current_input] and returns 0. *)
Theorem s_routing_hides_failed_write :
  fst (adv7180_s_routing (hdr := linux_headers) 3 0 0 m_nak_input_ctl) = 0
  /\ events_since m_nak_input_ctl
       (snd (adv7180_s_routing (hdr := linux_headers) 3 0 0 m_nak_input_ctl))
     = [MutexLock; I2c (Wr ADV7180_INPUT_CTL 3) EIO_neg; MutexUnlock]
  /\ current_input (sensor m_nak_input_ctl) = 0
  /\ current_input
       (sensor (snd (adv7180_s_routing (hdr := linux_headers) 3 0 0 m_nak_input_ctl)))
     = 3.
Proof. repeat split; reflexivity. Qed.

(* ================================================================== *)
(** ** Hard reset and interrupt enable *)

Lemma later_emit (e : event) (m : machine) (s : adv7180_dev) (evs : list event) :
  later (emit e m) s evs = later m s (e :: evs).
Proof.
  unfold later, emit. cbn [sensor chip trace].
  rewrite <- app_assoc. reflexivity.
Qed.

(** A register program is written in order up to the first write the
    bus refuses. *)
Lemma write_regs_cases (program : list (Z * Z)) (m : machine) :
  write_regs program m = (Next tt, later m (sensor m) (acked_writes program))
  \/ exists done reg value rest rc,
      program = done ++ (reg, value) :: rest
      /\ rc <> 0
      /\ write_regs program m
         = (Return rc,
            later m (sensor m)
                  (acked_writes done ++ [I2c (Wr reg (u8 value)) rc])).
Proof.
  revert m. induction program as [|[reg value] rest IH]; intros m.
  - left. cbn [write_regs acked_writes map]. unfold ret.
    rewrite later_nil. reflexivity.
  - cbn [write_regs].
    destruct (WRITE_REG_cases reg value m) as [rc [_ [[Hrc E]|[Hrc E]]]].
    + right. exists [], reg, value, rest, rc.
      rewrite (bind_Return _ _ _ _ _ E).
      split; [reflexivity|]. split; [assumption|]. reflexivity.
    + rewrite (bind_Next _ _ _ _ _ E). cbv beta.
      destruct (IH (emit (I2c (Wr reg (u8 value)) 0) m))
        as [Hok|(done & reg' & value' & rest' & rc' & Hp & Hrc' & Hr)].
      * left. rewrite Hok. cbn [sensor emit]. rewrite later_emit. reflexivity.
      * right. exists ((reg, value) :: done), reg', value', rest', rc'.
        split; [rewrite Hp; reflexivity|]. split; [assumption|].
        rewrite Hr. cbn [sensor emit]. rewrite later_emit. reflexivity.
Qed.

(** X1: [adv7180_hard_reset] writes 0x80 to Power Management without
    looking at the result, sleeps 5000..5001 us, then writes its
    register program in source order.  It returns 0 exactly when every
    write of the program was accepted; otherwise it stops at the first
    refused write and returns that write's code, the accepted writes
    before it being a prefix of the program.  The driver structure is
    never touched. *)
Theorem hard_reset_writes_program_until_first_refusal (m : machine) :
  let '(r, m') := adv7180_hard_reset m in
  sensor m' = sensor m
  /\ exists rc0,
      (r = 0
       /\ events_since m m'
          = I2c (Wr ADV7180_PWR_MNG 0x80) rc0 :: Usleep 5000 5001
            :: acked_writes adv7180_hard_reset_writes)
      \/ (r <> 0
          /\ exists done reg value rest,
              adv7180_hard_reset_writes = done ++ (reg, value) :: rest
              /\ events_since m m'
                 = I2c (Wr ADV7180_PWR_MNG 0x80) rc0 :: Usleep 5000 5001
                   :: acked_writes done ++ [I2c (Wr reg (u8 value)) r]).
Proof.
  unfold adv7180_hard_reset, returning, adv7180_write_reg,
    i2c_smbus_write_byte_data, usleep_range.
  cbv zeta. cbn [snd].
  set (rc0 := chip m (trace m) (Wr ADV7180_PWR_MNG (u8 128))).
  set (m1 := emit (Usleep 5000 5001) (emit (I2c (Wr ADV7180_PWR_MNG (u8 128)) rc0) m)).
  destruct (write_regs_cases adv7180_hard_reset_writes m1)
    as [Hok|(done & reg & value & rest & rc & Hp & Hrc & Hr)].
  - rewrite (bind_Next _ _ _ _ _ Hok). unfold ret.
    subst m1. cbn [sensor emit]. rewrite !later_emit.
    split; [reflexivity|]. exists rc0. left.
    rewrite events_since_later. split; reflexivity.
  - rewrite (bind_Return _ _ _ _ _ Hr).
    subst m1. cbn [sensor emit]. rewrite !later_emit.
    split; [reflexivity|]. exists rc0. right.
    rewrite events_since_later. split; [assumption|].
    exists done, reg, value, rest. split; [assumption | reflexivity].
Qed.

Ltac fail_leaf5 pre :=
  right; split; [first [assumption | lia]|]; exists pre; eexists;
  split; [reflexivity|];
  split; [simpl; apply truthy_nonzero; assumption|];
  split; [reflexivity|];
  intros Hx; simpl; try reflexivity.

(** X2: [adv7180_enable_interrupts] never touches the driver
    structure.  When every write is accepted it returns 0 after
    exactly five writes: interrupt register map, Interrupt Config 1 :=
    0xd1, Interrupt Mask 1 := 0x03 (SD_LOCK and SD_UNLOCK, bits 0 and
    1, and nothing else), Interrupt Mask 3 := 0x0a (SD_V_LOCK_CHNG and
    SD_AD_CHNG, bits 1 and 3, and nothing else), normal register map.
    When a write is refused it returns that write's code at once: a
    refusal after the first write leaves the interrupt register map
    selected. *)
Theorem enable_interrupts_unmasks_four_sources (m : machine) :
  let '(r, m') := adv7180_enable_interrupts m in
  sensor m' = sensor m
  /\ ((r = 0
       /\ events_since m m'
          = [ I2c (Wr 0x0E 0x20) 0;
              I2c (Wr ADV7180_INT_CONFIG_1 0xd1) 0;
              I2c (Wr ADV7180_INT_MASK_1 0x03) 0;
              I2c (Wr ADV7180_INT_MASK_3 0x0a) 0;
              I2c (Wr 0x0E 0x00) 0 ])
      \/ (r <> 0
          /\ exists pre x,
              events_since m m' = pre ++ [I2c x r]
              /\ i2c_failed (I2c x r) = true
              /\ existsb i2c_failed pre = false
              /\ (x <> Wr 0x0E 0x00 ->
                  existsb is_bank_restore (events_since m m') = false)))
  /\ (forall k, 0 <= k ->
        Z.testbit 0x03 k = ((k =? 0) || (k =? 1))
        /\ Z.testbit 0x0a k = ((k =? 1) || (k =? 3))).
Proof.
  unfold adv7180_enable_interrupts, returning.
  assert (Hbits : forall k, 0 <= k ->
            Z.testbit 0x03 k = ((k =? 0) || (k =? 1))
            /\ Z.testbit 0x0a k = ((k =? 1) || (k =? 3))).
  { intros k Hk.
    assert (Hc : k = 0 \/ k = 1 \/ k = 2 \/ k = 3 \/ 4 <= k) by lia.
    destruct Hc as [->|[->|[->|[->|Hc]]]]; try (split; reflexivity).
    split.
    - rewrite (Z.bits_above_log2 3 k) by (cbn; lia).
      destruct (Z.eqb_spec k 0); [lia|]. destruct (Z.eqb_spec k 1); [lia|].
      reflexivity.
    - rewrite (Z.bits_above_log2 10 k) by (cbn; lia).
      destruct (Z.eqb_spec k 1); [lia|]. destruct (Z.eqb_spec k 3); [lia|].
      reflexivity. }
  step_write r1 H1;
    [cbv iota; change (emit ?e m) with (later m (sensor m) ([] ++ [e]));
     rewrite events_since_later; split; [reflexivity|]; split; [|exact Hbits];
     fail_leaf5 (@nil event)|].
  step_write r2 H2;
    [cbv iota; change (emit ?e m) with (later m (sensor m) [e]);
     rewrite !emit_later, events_since_later; split; [reflexivity|];
     split; [|exact Hbits];
     fail_leaf5 [I2c (Wr 0x0E 0x20) 0]|].
  step_write r3 H3;
    [cbv iota; change (emit ?e m) with (later m (sensor m) [e]);
     rewrite !emit_later, events_since_later; split; [reflexivity|];
     split; [|exact Hbits];
     fail_leaf5 [I2c (Wr 0x0E 0x20) 0; I2c (Wr ADV7180_INT_CONFIG_1 0xd1) 0]|].
  step_write r4 H4;
    [cbv iota; change (emit ?e m) with (later m (sensor m) [e]);
     rewrite !emit_later, events_since_later; split; [reflexivity|];
     split; [|exact Hbits];
     fail_leaf5 [I2c (Wr 0x0E 0x20) 0; I2c (Wr ADV7180_INT_CONFIG_1 0xd1) 0;
                 I2c (Wr ADV7180_INT_MASK_1 0x03) 0]|].
  step_write r5 H5;
    cbv iota; unfold ret; change (emit ?e m) with (later m (sensor m) [e]);
    rewrite !emit_later, events_since_later; (split; [reflexivity|]);
    (split; [|exact Hbits]).
  - fail_leaf5 [I2c (Wr 0x0E 0x20) 0; I2c (Wr ADV7180_INT_CONFIG_1 0xd1) 0;
                I2c (Wr ADV7180_INT_MASK_1 0x03) 0;
                I2c (Wr ADV7180_INT_MASK_3 0x0a) 0].
    exfalso. apply Hx. reflexivity.
  - left. split; reflexivity.
Qed.

Lemma write_regs_acking (regs : Z -> Z) (program : list (Z * Z)) (m : machine) :
  chip m = acking_chip regs ->
  write_regs program m = (Next tt, later m (sensor m) (acked_writes program)).
Proof.
  revert m. induction program as [|[reg value] rest IH]; intros m Hc.
  - cbn [write_regs acked_writes map]. unfold ret. rewrite later_nil. reflexivity.
  - cbn [write_regs].
    rewrite (bind_Next _ _ _ _ _ (WRITE_REG_acking regs reg value m Hc)).
    cbv beta. rewrite (IH (emit (I2c (Wr reg (u8 value)) 0) m) Hc). cbn [sensor emit]. rewrite later_emit. reflexivity.
Qed.

Lemma hard_reset_acking (regs : Z -> Z) (m : machine) :
  chip m = acking_chip regs ->
  adv7180_hard_reset m
  = (0, later m (sensor m)
              (I2c (Wr ADV7180_PWR_MNG 0x80) 0 :: Usleep 5000 5001
               :: acked_writes adv7180_hard_reset_writes)).
Proof.
  intros Hc.
  unfold adv7180_hard_reset, returning, adv7180_write_reg,
    i2c_smbus_write_byte_data, usleep_range.
  cbv zeta. cbn [snd]. rewrite Hc. cbn [acking_chip].
  rewrite (bind_Next _ _ _ _ _ (write_regs_acking regs adv7180_hard_reset_writes (emit (Usleep 5000 5001) (emit (I2c (Wr ADV7180_PWR_MNG (u8 128)) 0) m)) Hc)).
  unfold ret. cbn [sensor emit]. rewrite !later_emit. reflexivity.
Qed.

Section ResetDefaults.
Context {hdr : kernel_headers}.

(** X3: on a chip that acknowledges every write,
    [adv7180_hard_reset] returns 0 and the last values it leaves
    programmed are: Power Management 0x00 (on, after the reset bit),
    register map select 0x00 (normal map), Input Control 0x00; and for
    every control of [adv7180_qctrl], setting the control to its
    [default_value] through [adv7180_s_ctrl] right after the reset
    succeeds and writes, to each register it touches, the very value
    the reset program left there. *)
Theorem hard_reset_programs_control_defaults
  (regs : Z -> Z) (s : adv7180_dev) (t : list event) :
  let m := {| sensor := s; chip := acking_chip regs; trace := t |} in
  let '(r, m1) := adv7180_hard_reset m in
  let programmed (reg : Z) := last_write reg (events_since m m1) in
  r = 0
  /\ programmed ADV7180_PWR_MNG = Some 0x00
  /\ programmed 0x0E = Some 0x00
  /\ programmed ADV7180_INPUT_CTL = Some 0x00
  /\ Forall (fun c =>
               let '(r2, m2) :=
                 adv7180_s_ctrl {| id := qc_id c; val := default_value c |} m1 in
               r2 = 0
               /\ events_since m1 m2 <> []
               /\ forall reg value rc,
                   In (I2c (Wr reg value) rc) (events_since m1 m2) ->
                   programmed reg = Some value)
            adv7180_qctrl.
Proof.
  cbv zeta. rewrite (hard_reset_acking regs) by reflexivity.
  rewrite events_since_later.
  split; [reflexivity|]. split; [vm_compute; reflexivity|].
  split; [vm_compute; reflexivity|]. split; [vm_compute; reflexivity|].
  set (m1 := later _ _ _).
  assert (Hc : chip m1 = acking_chip regs) by reflexivity.
  unfold adv7180_qctrl.
  apply Forall_cons; [|apply Forall_cons; [|apply Forall_cons;
    [|apply Forall_cons; [|apply Forall_nil]]]];
    cbn [qc_id default_value];
    unfold adv7180_s_ctrl; cbn [id val];
    repeat ack regs Hc; unfold bind, modify, ret; cbv iota beta;
    (split; [reflexivity|]);
    change (emit ?e m1) with (later m1 (sensor m1) [e]);
    rewrite ?emit_later, update_sensor_later, events_since_later;
    (split; [discriminate|]);
    intros reg value rc Hin; cbn [In app] in Hin;
    repeat (destruct Hin as [Hin|Hin];
            [inversion Hin; subst; vm_compute; reflexivity|]);
    contradiction.
Qed.

End ResetDefaults.

(* ================================================================== *)
(** ** More on lock status and the autodetected standard *)

Lemma lock_status_change_of_bits (int_stat1 int_stat3 : Z) :
  lock_status_change_of int_stat1 int_stat3
  = Z.testbit int_stat1 0 || Z.testbit int_stat1 1 || Z.testbit int_stat3 1.
Proof.
  unfold lock_status_change_of, ADV7180_INT_SD_LOCK, ADV7180_INT_SD_UNLOCK,
    ADV7180_INT_SD_V_LOCK_CHNG.
  rewrite !truthy_land_bit by lia. reflexivity.
Qed.

(** X4: a call of [adv7180_update_lock_status] that returns 0 has
    made exactly eight transfers, in this order: read STATUS_1, select
    the interrupt register map, read Interrupt Status 1 and 3, write
    each of the two bytes read back to its clear register, read
    Interrupt Raw Status 3, select the normal register map.  The flag
    it reports is the OR of SD_LOCK (bit 0) and SD_UNLOCK (bit 1) of
    Interrupt Status 1 and SD_V_LOCK_CHNG (bit 1) of Interrupt Status
    3, no other bit (SD_AD_CHNG included) taking part, and [locked] is
    the only member of the driver structure that may differ. *)
Theorem lock_status_change_is_or_of_three_bits (sc : bool) (m : machine) :
  let '((r, sc'), m') := adv7180_update_lock_status sc m in
  r = 0 ->
  exists stat1 int_stat1 int_stat3 int_raw_stat3,
    events_since m m'
    = [ I2c (Rd ADV7180_STATUS_1) stat1;
        I2c (Wr 0x0E 0x20) 0;
        I2c (Rd ADV7180_INT_STATUS_1) int_stat1;
        I2c (Rd ADV7180_INT_STATUS_3) int_stat3;
        I2c (Wr ADV7180_INT_CLEAR_1 (u8 int_stat1)) 0;
        I2c (Wr ADV7180_INT_CLEAR_3 (u8 int_stat3)) 0;
        I2c (Rd ADV7180_INT_RAW_STATUS_3) int_raw_stat3;
        I2c (Wr 0x0E 0x00) 0 ]
    /\ sc' = Z.testbit int_stat1 0 || Z.testbit int_stat1 1
             || Z.testbit int_stat3 1
    /\ sensor m' = set_locked (locked (sensor m')) (sensor m).
Proof.
  destruct (update_lock_status_cases sc m)
    as [(v1 & v2 & v3 & v4 & H1 & H2 & H3 & H4 & E)
       |(pre & x & r & E & Hr & _)]; rewrite E.
  - intros _. exists v1, v2, v3, v4. rewrite events_since_later.
    split; [reflexivity|]. split; [|reflexivity].
    rewrite lock_status_change_of_bits, !u8_testbit by lia. reflexivity.
  - intros H0. contradiction.
Qed.

(** X4 on healthy chips: SD_UNLOCK alone (with SD_AD_CHNG set) reports
    a change; every bit but the three set reports none. *)
Lemma lock_status_change_is_or_of_three_bits_witness :
  snd (fst (adv7180_update_lock_status false
              (boot ntsc_sensor (acking_chip (status_regs 0x05 0x02 0x08 0x02)))))
  = true
  /\ snd (fst (adv7180_update_lock_status true
                 (boot ntsc_sensor (acking_chip (status_regs 0x05 0xFC 0xFD 0x02)))))
     = false.
Proof.
  split.
  - pose proof (lock_status_change_is_or_of_three_bits false
                  (boot ntsc_sensor (acking_chip (status_regs 0x05 0x02 0x08 0x02))))
      as H.
    destruct (adv7180_update_lock_status false _) as [[r sc'] m'] eqn:E.
    vm_compute in E. inversion E; subst r sc' m'; clear E.
    destruct (H eq_refl) as (a & b & c & d & Hev & Hsc & _).
    vm_compute in Hev. inversion Hev; subst. exact Hsc.
  - pose proof (lock_status_change_is_or_of_three_bits true
                  (boot ntsc_sensor (acking_chip (status_regs 0x05 0xFC 0xFD 0x02))))
      as H.
    destruct (adv7180_update_lock_status true _) as [[r sc'] m'] eqn:E.
    vm_compute in E. inversion E; subst r sc' m'; clear E.
    destruct (H eq_refl) as (a & b & c & d & Hev & Hsc & _).
    vm_compute in Hev. inversion Hev; subst. exact Hsc.
Defined.

Section Autodetect2.
Context {hdr : kernel_headers}.

(** X5: on a locked decoder whose read of STATUS_1 fails,
    [adv7180_get_autodetect_std] returns the error code of the read
    with [*status_change] false, after that single transfer and with
    the driver structure as it was. *)
Theorem autodetect_read_failure_keeps_standard (sc : bool) (m : machine) :
  locked (sensor m) = true ->
  chip m (trace m) (Rd ADV7180_STATUS_1) < 0 ->
  adv7180_get_autodetect_std sc m
  = ((chip m (trace m) (Rd ADV7180_STATUS_1), false),
     later m (sensor m)
           [I2c (Rd ADV7180_STATUS_1) (chip m (trace m) (Rd ADV7180_STATUS_1))]).
Proof.
  intros Hl Hv. rewrite (get_autodetect_std_locked sc m Hl). cbv zeta.
  rewrite ltb_neg by assumption. reflexivity.
Qed.

Lemma autodetect_keeps_lock (sc : bool) (m : machine) :
  locked (sensor (snd (adv7180_get_autodetect_std sc m))) = locked (sensor m).
Proof.
  destruct (locked (sensor m)) eqn:Hl.
  - rewrite (get_autodetect_std_locked sc m Hl). cbv zeta.
    destruct (_ <? 0); [assumption|].
    destruct (_ =? _); assumption.
  - rewrite (get_autodetect_std_unlocked sc m Hl). assumption.
Qed.

Lemma autodetect_stores_resolved_std (sc : bool) (m : machine) :
  locked (sensor m) = true ->
  0 <= chip m (trace m) (Rd ADV7180_STATUS_1) ->
  std_id (sensor (snd (adv7180_get_autodetect_std sc m)))
  = fst (ad_result_switch
           (ad_result_of (u8 (chip m (trace m) (Rd ADV7180_STATUS_1))))).
Proof.
  intros Hl Hv. rewrite (get_autodetect_std_locked sc m Hl). cbv zeta.
  rewrite ltb_nonneg by assumption.
  destruct (Z.eqb_spec
              (fst (ad_result_switch
                      (ad_result_of (u8 (chip m (trace m) (Rd ADV7180_STATUS_1))))))
              (std_id (sensor m))) as [Heq|Hne].
  - cbn [snd later sensor]. symmetry. assumption.
  - reflexivity.
Qed.

(** X6: [adv7180_get_autodetect_std] is idempotent on the autodetect
    code: on a locked decoder, a second call whose read of STATUS_1
    delivers the same bits [6:4] as the first call's read returns 0,
    reports no change and leaves the driver structure as the first
    call left it, whatever the first call found stored. *)
Theorem autodetect_same_code_again_reports_no_change
  (sc1 sc2 : bool) (m : machine) :
  locked (sensor m) = true ->
  0 <= chip m (trace m) (Rd ADV7180_STATUS_1) ->
  let '((r1, c1), m1) := adv7180_get_autodetect_std sc1 m in
  0 <= chip m1 (trace m1) (Rd ADV7180_STATUS_1) ->
  ad_result_of (u8 (chip m1 (trace m1) (Rd ADV7180_STATUS_1)))
  = ad_result_of (u8 (chip m (trace m) (Rd ADV7180_STATUS_1))) ->
  let '((r2, c2), m2) := adv7180_get_autodetect_std sc2 m1 in
  r2 = 0 /\ c2 = false /\ sensor m2 = sensor m1.
Proof.
  intros Hl Hv.
  pose proof (autodetect_keeps_lock sc1 m) as Hl1.
  pose proof (autodetect_stores_resolved_std sc1 m Hl Hv) as Hs1.
  destruct (adv7180_get_autodetect_std sc1 m) as [[r1 c1] m1].
  cbn [snd] in Hl1, Hs1. rewrite Hl in Hl1.
  intros Hv1 Hcode.
  rewrite (get_autodetect_std_locked sc2 m1 Hl1). cbv zeta.
  rewrite ltb_nonneg, Hcode, Hs1, Z.eqb_refl by assumption.
  repeat split.
Qed.

(** X7: the table index follows the standard id only.  Codes 5
    (SECAM) and 7 (SECAM 525) resolve to the same standard id with
    different table indices (PAL and NTSC), so on a locked decoder
    that has SECAM stored, reading code 7 reports no change and
    leaves the table index and frame size as they were. *)
Theorem autodetect_secam_525_after_secam_keeps_geometry
  (sc : bool) (m : machine) :
  locked (sensor m) = true ->
  std_id (sensor m) = V4L2_STD_SECAM ->
  0 <= chip m (trace m) (Rd ADV7180_STATUS_1) ->
  ad_result_of (u8 (chip m (trace m) (Rd ADV7180_STATUS_1))) = ADV7180_AD_SECAM_525 ->
  snd (ad_result_switch ADV7180_AD_SECAM) = ADV7180_PAL
  /\ snd (ad_result_switch ADV7180_AD_SECAM_525) = ADV7180_NTSC
  /\ let '((r, sc'), m') := adv7180_get_autodetect_std sc m in
     r = 0 /\ sc' = false /\ sensor m' = sensor m.
Proof.
  intros Hl Hs Hv Hc.
  split; [reflexivity|]. split; [reflexivity|].
  rewrite (get_autodetect_std_locked sc m Hl). cbv zeta.
  rewrite ltb_nonneg, Hc by assumption.
  change (fst (ad_result_switch ADV7180_AD_SECAM_525)) with V4L2_STD_SECAM.
  rewrite Hs, Z.eqb_refl. repeat split.
Qed.

End Autodetect2.

(* ================================================================== *)
(** ** More on controls, routing and the query *)

Section Controls2.
Context {hdr : kernel_headers}.

(** X8: the saturation setter writes the low byte of the value (the
    value itself within the declared range 0..255) to SD Saturation Cb
    and then to SD Saturation Cr.  It ends in one of three ways: Cb
    refused (one transfer, its code returned, structure untouched); Cb
    accepted and Cr refused (two transfers, Cr's code returned,
    structure untouched although Cb already holds the new value); both
    accepted (0 returned, [saturation] holds the value, nothing else
    changed). *)
Theorem s_ctrl_saturation_writes_both_chroma (v : Z) (m : machine) :
  let '(r, m') := adv7180_s_ctrl {| id := V4L2_CID_SATURATION; val := v |} m in
  (0 <= v <= 255 -> u8 v = v)
  /\ ((exists rc,
         rc <> 0 /\ r = rc
         /\ events_since m m' = [I2c (Wr ADV7180_SD_SATURATION_CB (u8 v)) rc]
         /\ sensor m' = sensor m)
      \/ (exists rc,
            rc <> 0 /\ r = rc
            /\ events_since m m'
               = [ I2c (Wr ADV7180_SD_SATURATION_CB (u8 v)) 0;
                   I2c (Wr ADV7180_SD_SATURATION_CR (u8 v)) rc ]
            /\ sensor m' = sensor m)
      \/ (r = 0
          /\ events_since m m'
             = [ I2c (Wr ADV7180_SD_SATURATION_CB (u8 v)) 0;
                 I2c (Wr ADV7180_SD_SATURATION_CR (u8 v)) 0 ]
          /\ sensor m' = set_saturation v (sensor m))).
Proof.
  unfold adv7180_s_ctrl. cbn [id val].
  step_write rc1 H1; [|step_write rc2 H2];
    rewrite ?u8_u8;
    unfold bind, modify, ret; cbv iota beta;
    change (emit ?e m) with (later m (sensor m) [e]);
    rewrite ?emit_later, ?update_sensor_later, events_since_later;
    (split; [intros Hv; unfold u8; apply Z.mod_small; lia|]).
  - left. exists rc1. auto.
  - right. left. exists rc2. auto.
  - right. right. auto.
Qed.

(** X9: the brightness and contrast setters make exactly one
    transfer, a write of the low byte of the value (the value itself
    within the declared range 0..255) to register 0x0A or 0x08, and
    return what the bus returned; the structure keeps the value as
    requested (not its low byte) when the write was accepted and is
    untouched otherwise. *)
Theorem s_ctrl_brightness_contrast_write_low_byte (v : Z) (m : machine) :
  (0 <= v <= 255 -> u8 v = v)
  /\ (let '(r, m') := adv7180_s_ctrl {| id := V4L2_CID_BRIGHTNESS; val := v |} m in
      exists rc,
        r = rc
        /\ events_since m m' = [I2c (Wr ADV7180_BRIGHTNESS (u8 v)) rc]
        /\ sensor m' = (if rc =? 0 then set_brightness v (sensor m) else sensor m))
  /\ (let '(r, m') := adv7180_s_ctrl {| id := V4L2_CID_CONTRAST; val := v |} m in
      exists rc,
        r = rc
        /\ events_since m m' = [I2c (Wr ADV7180_CONTRAST (u8 v)) rc]
        /\ sensor m' = (if rc =? 0 then set_contrast v (sensor m) else sensor m)).
Proof.
  split; [intros Hv; unfold u8; apply Z.mod_small; lia|].
  split; unfold adv7180_s_ctrl; cbn [id val];
    step_write rc H; rewrite ?u8_u8;
    unfold bind, modify, ret; cbv iota beta;
    change (emit ?e m) with (later m (sensor m) [e]);
    rewrite ?update_sensor_later, events_since_later.
  - exists rc. destruct (Z.eqb_spec rc 0); [contradiction|]. auto.
  - exists 0. auto.
  - exists rc. destruct (Z.eqb_spec rc 0); [contradiction|]. auto.
  - exists 0. auto.
Qed.

(** For every control id other than brightness, contrast,
    saturation and hue, [adv7180_s_ctrl] leaves the machine exactly as
    it was (no transfer, no member changed); it returns 0 for the ten
    ids it lists without a body and [-EPERM] for any other id. *)
Theorem s_ctrl_other_ids_touch_nothing (c : v4l2_ctrl) (m : machine) :
  id c <> V4L2_CID_BRIGHTNESS -> id c <> V4L2_CID_CONTRAST ->
  id c <> V4L2_CID_SATURATION -> id c <> V4L2_CID_HUE ->
  adv7180_s_ctrl c m
  = (match id c with V4L2_CID_unlisted => - EPERM | _ => 0 end, m).
Proof.
  destruct c as [cid v]. cbn [id]. intros Hb Hc Hs Hh.
  destruct cid; try contradiction; reflexivity.
Qed.

(** X11: [adv7180_s_routing] accepts exactly the selectors of
    [adv7180_inputs_64_48], which are 0..10.  For those it takes the
    mutex, writes the selector to Input Control, records it in
    [current_input], releases the mutex and returns 0, whatever
    [output] and [config] are; any other selector gets [-EINVAL] and
    the machine is left exactly as it was. *)
Theorem s_routing_accepts_exactly_the_input_table
  (input output config : Z) (m : machine) :
  (In input (map insel adv7180_inputs_64_48) <-> 0 <= input <= 10)
  /\ ((0 <= input <= 10
       /\ exists rc,
           adv7180_s_routing input output config m
           = (0, later m (set_current_input input (sensor m))
                       [MutexLock; I2c (Wr ADV7180_INPUT_CTL input) rc;
                        MutexUnlock]))
      \/ (~ (0 <= input <= 10)
          /\ adv7180_s_routing input output config m = (- EINVAL, m))).
Proof.
  split.
  - unfold adv7180_inputs_64_48. cbn [map insel In]. lia.
  - destruct (Z_le_dec 0 input) as [H0|H0];
      [destruct (Z_le_dec input 10) as [H1|H1]|].
    + left. split; [lia|]. apply s_routing_known. lia.
    + right. split; [lia|]. apply s_routing_rejects_unknown. lia.
    + right. split; [lia|]. apply s_routing_rejects_unknown. lia.
Qed.

(** X12: [adv7180_querystd] takes the mutex first and releases it
    last on every path, with nothing but bus transfers in between.
    With an irq line it makes no transfer and returns 0 with the
    stored standard.  Whenever it returns non-zero the caller's [std]
    is left alone; whenever it returns 0 the caller receives the
    standard id stored when the call ends. *)
Theorem querystd_always_releases_mutex (std : Z) (m : machine) :
  let '((r, std'), m') := adv7180_querystd std m in
  exists evs,
    events_since m m' = MutexLock :: evs ++ [MutexUnlock]
    /\ forallb is_i2c evs = true
    /\ (irq (sensor m) <> 0 ->
        evs = [] /\ r = 0 /\ std' = std_id (sensor m) /\ sensor m' = sensor m)
    /\ (r <> 0 -> std' = std)
    /\ (r = 0 -> std' = std_id (sensor m')).
Proof.
  unfold adv7180_querystd.
  change (irq (sensor (mutex_lock m))) with (irq (sensor m)).
  assert (Hlock : forall evs m2,
             trace m2 = trace (mutex_lock m) ++ evs ->
             events_since m (mutex_unlock m2) = MutexLock :: evs ++ [MutexUnlock]).
  { intros evs m2 Ht. unfold events_since, mutex_unlock, mutex_lock, emit in *.
    cbn [trace] in *. rewrite Ht, <- !app_assoc. apply skipn_length_app. }
  destruct (Z.eqb_spec (irq (sensor m)) 0) as [Hirq|Hirq].
  - rewrite Hirq. cbn [truthy Z.eqb negb].
    destruct (update_lock_status_bus_only false (mutex_lock m))
      as (evs1 & Ht1 & _ & Hi1).
    destruct (adv7180_update_lock_status false (mutex_lock m)) as [[r1 c1] m1].
    cbn [snd] in Ht1.
    destruct (truthy r1) eqn:Hr1.
    + exists evs1. rewrite (Hlock evs1 m1 Ht1).
      split; [reflexivity|]. split; [assumption|].
      split; [intros Hn; contradiction|].
      split; [reflexivity|].
      intros H0. subst r1. discriminate Hr1.
    + destruct (get_autodetect_std_bus_only false m1) as (evs2 & Ht2 & _ & Hi2).
      destruct (adv7180_get_autodetect_std false m1) as [[r2 c2] m2].
      cbn [snd] in Ht2.
      assert (Ht : trace m2 = trace (mutex_lock m) ++ evs1 ++ evs2)
        by (rewrite Ht2, Ht1, app_assoc; reflexivity).
      assert (Hi : forallb is_i2c (evs1 ++ evs2) = true)
        by (rewrite forallb_app, Hi1, Hi2; reflexivity).
      destruct (truthy r2) eqn:Hr2.
      * exists (evs1 ++ evs2). rewrite (Hlock _ m2 Ht).
        split; [reflexivity|]. split; [assumption|].
        split; [intros Hn; contradiction|].
        split; [reflexivity|].
        intros H0. subst r2. discriminate Hr2.
      * exists (evs1 ++ evs2). rewrite (Hlock _ m2 Ht).
        split; [reflexivity|]. split; [assumption|].
        split; [intros Hn; contradiction|].
        split; [|reflexivity].
        intros Hn. unfold truthy in Hr2.
        apply negb_false_iff, Z.eqb_eq in Hr2. contradiction.
  - assert (Ht : truthy (irq (sensor m)) = true) by (apply truthy_nonzero; assumption).
    rewrite Ht. cbn [negb].
    exists []. rewrite (Hlock [] (mutex_lock m)) by (rewrite app_nil_r; reflexivity).
    split; [reflexivity|]. split; [reflexivity|].
    split; [intros _; repeat split|].
    split; [intros Hn; contradiction Hn; reflexivity | reflexivity].
Qed.

End Controls2.

(* ================================================================== *)
(** ** The geometry invariant *)

Section Geometry.
Context {hdr : kernel_headers}.

Lemma ad_result_switch_idx (code : Z) :
  snd (ad_result_switch code) = ADV7180_NTSC
  \/ snd (ad_result_switch code) = ADV7180_PAL.
Proof.
  unfold ad_result_switch.
  repeat match goal with
         | |- context [if ?c then _ else _] => destruct c
         end; cbn [snd]; auto.
Qed.

Lemma geometry_ok_after_update (std idx : Z) (s : adv7180_dev) :
  idx = ADV7180_NTSC \/ idx = ADV7180_PAL ->
  geometry_ok (set_fmt_size (rect_width (raw (video_fmts_at idx)))
                            (rect_height (raw (video_fmts_at idx)))
                            (set_std_id std (set_video_idx idx s))) = true.
Proof. intros [->| ->]; reflexivity. Qed.

Lemma update_lock_status_geometry (sc : bool) (m : machine) :
  geometry_ok (sensor (snd (adv7180_update_lock_status sc m)))
  = geometry_ok (sensor m).
Proof.
  destruct (update_lock_status_cases sc m)
    as [(v1 & v2 & v3 & v4 & _ & _ & _ & _ & E)|(pre & x & r & E & _)];
    rewrite E; reflexivity.
Qed.

Lemma get_autodetect_std_geometry (sc : bool) (m : machine) :
  geometry_ok (sensor m) = true ->
  geometry_ok (sensor (snd (adv7180_get_autodetect_std sc m))) = true.
Proof.
  intros Hg. destruct (locked (sensor m)) eqn:Hl.
  - rewrite (get_autodetect_std_locked sc m Hl). cbv zeta.
    destruct (_ <? 0); [assumption|].
    destruct (_ =? _); [assumption|].
    cbn [snd later sensor]. apply geometry_ok_after_update, ad_result_switch_idx.
  - rewrite (get_autodetect_std_unlocked sc m Hl). assumption.
Qed.

Lemma s_ctrl_geometry (c : v4l2_ctrl) (m : machine) :
  geometry_ok (sensor (snd (adv7180_s_ctrl c m))) = geometry_ok (sensor m).
Proof.
  unfold adv7180_s_ctrl. destruct c as [cid v]. cbn [id val].
  destruct cid; try reflexivity.
  - step_write rc H; reflexivity.
  - step_write rc H; reflexivity.
  - step_write rc H; [reflexivity|]. step_write rc2 H2; reflexivity.
  - step_write rc H; reflexivity.
Qed.

Lemma s_routing_geometry (input output config : Z) (m : machine) :
  geometry_ok (sensor (snd (adv7180_s_routing input output config m)))
  = geometry_ok (sensor m).
Proof.
  unfold adv7180_s_routing. destruct (adv7180_find_input input); reflexivity.
Qed.

Lemma power_geometry (enable : bool) (m : machine) :
  geometry_ok (sensor (adv7180_power enable m)) = geometry_ok (sensor m).
Proof.
  unfold adv7180_power.
  destruct (enable && negb (on (sensor m)));
    [destruct (gpio_is_valid _); reflexivity|].
  destruct (negb enable && on (sensor m)); [|reflexivity].
  cbn [snd adv7180_write_reg i2c_smbus_write_byte_data emit sensor].
  destruct (gpio_is_valid _); reflexivity.
Qed.

Lemma interrupt_geometry (c1 c2 : bool) (m : machine) :
  geometry_ok (sensor m) = true ->
  geometry_ok (sensor (snd (adv7180_interrupt c1 c2 m))) = true.
Proof.
  intros Hg. unfold adv7180_interrupt.
  pose proof (update_lock_status_geometry c2 (mutex_lock m)) as H1.
  destruct (adv7180_update_lock_status c2 (mutex_lock m)) as [[r1 l1] m1].
  cbn [snd] in H1.
  pose proof (get_autodetect_std_geometry c1 m1) as H2.
  destruct (adv7180_get_autodetect_std c1 m1) as [[r2 l2] m2].
  cbn [snd] in H2. cbv zeta. cbn [snd].
  assert (Hm : geometry_ok (sensor m2) = true)
    by (apply H2; rewrite H1; exact Hg).
  destruct (l1 || l2); exact Hm.
Qed.

Lemma querystd_geometry (std : Z) (m : machine) :
  geometry_ok (sensor m) = true ->
  geometry_ok (sensor (snd (adv7180_querystd std m))) = true.
Proof.
  intros Hg. unfold adv7180_querystd.
  destruct (negb (truthy (irq (sensor (mutex_lock m))))); [|exact Hg].
  pose proof (update_lock_status_geometry false (mutex_lock m)) as H1.
  destruct (adv7180_update_lock_status false (mutex_lock m)) as [[r1 l1] m1].
  cbn [snd] in H1.
  assert (Hm1 : geometry_ok (sensor m1) = true) by (rewrite H1; exact Hg).
  destruct (truthy r1); [exact Hm1|].
  pose proof (get_autodetect_std_geometry false m1 Hm1) as H2.
  destruct (adv7180_get_autodetect_std false m1) as [[r2 l2] m2].
  cbn [snd] in H2.
  destruct (truthy r2); exact H2.
Qed.

(** X13: an invariant of the driver structure: the standard index is
    ADV7180_NTSC or ADV7180_PAL (so [video_fmts[video_idx]] is in
    bounds) and the frame width and height equal the raw size of that
    table entry.  Once it holds it holds after every operation that
    can change the structure: the lock refresh, the standard refresh,
    the interrupt handler, [adv7180_querystd], the control setters,
    input routing and [adv7180_power], for every argument, every chip
    and every outcome of the bus. *)
Theorem geometry_is_preserved (m : machine) :
  geometry_ok (sensor m) = true ->
  (forall sc, geometry_ok (sensor (snd (adv7180_update_lock_status sc m))) = true)
  /\ (forall sc, geometry_ok (sensor (snd (adv7180_get_autodetect_std sc m))) = true)
  /\ (forall c1 c2, geometry_ok (sensor (snd (adv7180_interrupt c1 c2 m))) = true)
  /\ (forall std, geometry_ok (sensor (snd (adv7180_querystd std m))) = true)
  /\ (forall c, geometry_ok (sensor (snd (adv7180_s_ctrl c m))) = true)
  /\ (forall input output config,
         geometry_ok (sensor (snd (adv7180_s_routing input output config m))) = true)
  /\ (forall enable, geometry_ok (sensor (adv7180_power enable m)) = true).
Proof.
  intros Hg.
  split; [intros; rewrite update_lock_status_geometry; exact Hg|].
  split; [intros; apply get_autodetect_std_geometry; exact Hg|].
  split; [intros; apply interrupt_geometry; exact Hg|].
  split; [intros; apply querystd_geometry; exact Hg|].
  split; [intros; rewrite s_ctrl_geometry; exact Hg|].
  split; [intros; rewrite s_routing_geometry; exact Hg|].
  intros; rewrite power_geometry; exact Hg.
Qed.

End Geometry.

Section Queries2.
Context {hdr : kernel_headers} {v4l2 : v4l2_headers}.

(** X14: under that invariant the three geometry queries agree: the
    crop rectangle of [adv7180_g_crop] has non-negative origin and lies
    inside the frame of [adv7180_g_mbus_fmt], and
    [adv7180_enum_framesizes] reports that rectangle's width and height
    for index 0 and refuses any larger index with [-EINVAL], leaving
    the caller's structure alone.  None of the three changes the
    machine. *)
Theorem crop_lies_within_frame
  (f0 : v4l2_mbus_framefmt) (a0 : v4l2_crop) (fs0 : v4l2_frmsizeenum)
  (m : machine) :
  geometry_ok (sensor m) = true ->
  let '((r1, f), m1) := adv7180_g_mbus_fmt f0 m in
  let '((r2, a), m2) := adv7180_g_crop a0 m in
  let '((r3, fs), m3) := adv7180_enum_framesizes fs0 m in
  r1 = 0 /\ r2 = 0 /\ m1 = m /\ m2 = m /\ m3 = m
  /\ 0 <= rect_left (crop_c a)
  /\ 0 <= rect_top (crop_c a)
  /\ rect_left (crop_c a) + rect_width (crop_c a) <= fmt_width f
  /\ rect_top (crop_c a) + rect_height (crop_c a) <= fmt_height f
  /\ (fs_index fs0 <= 0 ->
      r3 = 0
      /\ fs_discrete_width fs = rect_width (crop_c a)
      /\ fs_discrete_height fs = rect_height (crop_c a))
  /\ (0 < fs_index fs0 -> r3 = - EINVAL /\ fs = fs0).
Proof.
  intros Hg. unfold adv7180_g_mbus_fmt, adv7180_g_crop, adv7180_enum_framesizes.
  unfold geometry_ok in Hg.
  apply andb_true_iff in Hg. destruct Hg as [Hg Hh].
  apply andb_true_iff in Hg. destruct Hg as [Hi Hw].
  apply Z.eqb_eq in Hw, Hh.
  assert (Hgeom :
            0 <= rect_left (crop (video_fmts_at (video_idx (sensor m))))
            /\ 0 <= rect_top (crop (video_fmts_at (video_idx (sensor m))))
            /\ rect_left (crop (video_fmts_at (video_idx (sensor m))))
               + rect_width (crop (video_fmts_at (video_idx (sensor m))))
               <= fmt_width (fmt (sensor m))
            /\ rect_top (crop (video_fmts_at (video_idx (sensor m))))
               + rect_height (crop (video_fmts_at (video_idx (sensor m))))
               <= fmt_height (fmt (sensor m))).
  { rewrite Hw, Hh.
    apply orb_true_iff in Hi. destruct Hi as [Hi|Hi];
      apply Z.eqb_eq in Hi; rewrite Hi;
        unfold video_fmts_at, video_fmts, ADV7180_NTSC, ADV7180_PAL; simpl; lia. }
  destruct Hgeom as (G1 & G2 & G3 & G4).
  destruct (Z.gtb_spec (fs_index fs0) 0) as [Hpos|Hle]; cbn [crop_c];
    repeat (split; [first [reflexivity | assumption]|]).
  - split; [intros Hc; lia | intros _; split; reflexivity].
  - split; [intros _; repeat split | intros Hc; lia].
Qed.

End Queries2.

(* ================================================================== *)
(** ** The interrupt handler on its own, and the input status *)

Section Interrupt2.
Context {hdr : kernel_headers}.

(** X15: every invocation of [adv7180_interrupt] returns IRQ_HANDLED
    whatever the bus did, takes the mutex first, makes only bus
    transfers while it holds it, releases it, and emits at most one
    notification, which, when there is one, comes after the release
    and is the last thing the handler does. *)
Theorem interrupt_notifies_at_most_once
  (std_change lock_status_change : bool) (m : machine) :
  let '(r, m') := adv7180_interrupt std_change lock_status_change m in
  r = IRQ_HANDLED
  /\ (notifications (events_since m m') <= 1)%nat
  /\ exists evs,
      forallb is_i2c evs = true
      /\ (events_since m m' = MutexLock :: evs ++ [MutexUnlock]
          \/ events_since m m' = MutexLock :: evs ++ [MutexUnlock; Notify]).
Proof.
  pose proof (interrupt_trace std_change lock_status_change m) as H.
  destruct (adv7180_update_lock_status lock_status_change (mutex_lock m))
    as [[r1 lsc] m1].
  destruct (adv7180_get_autodetect_std std_change m1) as [[r2 sc] m2].
  destruct (adv7180_interrupt std_change lock_status_change m) as [r m'].
  destruct H as (Hr & _ & evs & Hi & Hev & Hn).
  split; [assumption|]. split; [rewrite Hn; destruct (lsc || sc); lia|].
  exists evs. split; [assumption|].
  rewrite Hev. destruct (lsc || sc); auto.
Qed.

(** X16: on a chip that acknowledges every transfer the handler's
    outcome does not depend on what its two uninitialised locals held.
    [locked] becomes the AND of IN_LOCK, FSC_LOCK and SD_V_LOCK; the
    stored standard becomes the one resolved from STATUS_1 when the
    decoder is now locked and stays otherwise; and exactly one
    notification is emitted when SD_LOCK, SD_UNLOCK or SD_V_LOCK_CHNG
    is latched or the decoder is now locked on a standard other than
    the stored one, and none otherwise. *)
Theorem interrupt_on_healthy_chip
  (regs : Z -> Z) (s : adv7180_dev) (t : list event) (c1 c2 : bool) :
  let m := {| sensor := s; chip := acking_chip regs; trace := t |} in
  let m' := snd (adv7180_interrupt c1 c2 m) in
  let now_locked :=
    Z.testbit (regs ADV7180_STATUS_1) 0 && Z.testbit (regs ADV7180_STATUS_1) 2
    && Z.testbit (regs ADV7180_INT_RAW_STATUS_3) 1 in
  let lock_changed :=
    Z.testbit (regs ADV7180_INT_STATUS_1) 0 || Z.testbit (regs ADV7180_INT_STATUS_1) 1
    || Z.testbit (regs ADV7180_INT_STATUS_3) 1 in
  let std :=
    fst (ad_result_switch (ad_result_of (u8 (regs ADV7180_STATUS_1)))) in
  locked (sensor m') = now_locked
  /\ std_id (sensor m') = (if now_locked then std else std_id s)
  /\ notifications (events_since m m')
     = (if lock_changed || (now_locked && negb (std =? std_id s))
        then 1%nat else 0%nat).
Proof.
  cbv zeta.
  set (m := {| sensor := s; chip := acking_chip regs; trace := t |}).
  pose proof (interrupt_trace c1 c2 m) as H.
  rewrite (update_lock_status_acking regs c2 (mutex_lock m) eq_refl) in H.
  rewrite lock_status_change_of_bits, locked_of_bits, !u8_testbit in H by lia.
  set (now_locked :=
         Z.testbit (regs ADV7180_STATUS_1) 0 && Z.testbit (regs ADV7180_STATUS_1) 2
         && Z.testbit (regs ADV7180_INT_RAW_STATUS_3) 1) in *.
  set (lock_changed :=
         Z.testbit (regs ADV7180_INT_STATUS_1) 0
         || Z.testbit (regs ADV7180_INT_STATUS_1) 1
         || Z.testbit (regs ADV7180_INT_STATUS_3) 1) in *.
  set (m1 := later (mutex_lock m) _ _) in H.
  destruct now_locked eqn:Hl.
  - assert (Hl1 : locked (sensor m1) = true) by reflexivity.
    rewrite (get_autodetect_std_locked c1 m1 Hl1) in H. cbv zeta in H.
    change (chip m1 (trace m1) (Rd ADV7180_STATUS_1))
      with (u8 (regs ADV7180_STATUS_1)) in H.
    rewrite ltb_nonneg, u8_u8 in H by apply u8_range.
    change (std_id (sensor m1)) with (std_id s) in H.
    destruct (fst (ad_result_switch (ad_result_of (u8 (regs ADV7180_STATUS_1))))
              =? std_id s) eqn:He;
      destruct (adv7180_interrupt c1 c2 m) as [r m'];
      destruct H as (_ & Hs & evs & _ & _ & Hn); cbn [snd];
      rewrite Hs, Hn; cbn [negb andb]; rewrite ?orb_false_r, ?orb_true_r.
    + apply Z.eqb_eq in He. repeat split. cbn. symmetry. exact He.
    + repeat split.
  - assert (Hl1 : locked (sensor m1) = false) by reflexivity.
    rewrite (get_autodetect_std_unlocked c1 m1 Hl1) in H.
    destruct (adv7180_interrupt c1 c2 m) as [r m'].
    destruct H as (_ & Hs & evs & _ & _ & Hn). cbn [snd].
    rewrite Hs, Hn. cbn [andb]. rewrite orb_false_r. repeat split.
Qed.

End Interrupt2.

Section Status.
Context {hdr : kernel_headers} {v4l2 : v4l2_headers}.

(** X17: [adv7180_g_input_status] returns 0, makes no transfer (it
    only takes and releases the mutex), changes no member and ignores
    what the caller's [status] held.  With the three status values
    distinct and non-zero, the status is 0 exactly when the decoder is
    powered and locked, NO_POWER exactly when it is not powered
    (whatever [locked] says), and NO_SIGNAL | NO_SYNC exactly when it
    is powered and not locked; right after [adv7180_power] switched the
    decoder off it is NO_POWER. *)
Theorem input_status_reports_power_then_lock (st0 : Z) (m : machine) :
  V4L2_IN_ST_NO_POWER <> 0 ->
  Z.lor V4L2_IN_ST_NO_SIGNAL V4L2_IN_ST_NO_SYNC <> 0 ->
  V4L2_IN_ST_NO_POWER <> Z.lor V4L2_IN_ST_NO_SIGNAL V4L2_IN_ST_NO_SYNC ->
  let '((r, st), m') := adv7180_g_input_status st0 m in
  r = 0
  /\ sensor m' = sensor m
  /\ events_since m m' = [MutexLock; MutexUnlock]
  /\ (st = 0 <-> on (sensor m) = true /\ locked (sensor m) = true)
  /\ (st = V4L2_IN_ST_NO_POWER <-> on (sensor m) = false)
  /\ (st = Z.lor V4L2_IN_ST_NO_SIGNAL V4L2_IN_ST_NO_SYNC
      <-> on (sensor m) = true /\ locked (sensor m) = false)
  /\ snd (fst (adv7180_g_input_status st0 (adv7180_power false m)))
     = V4L2_IN_ST_NO_POWER.
Proof.
  intros Hp Hs Hne. unfold adv7180_g_input_status. cbv zeta.
  change (sensor (mutex_lock ?x)) with (sensor x).
  split; [reflexivity|]. split; [reflexivity|].
  split.
  { unfold mutex_unlock, mutex_lock.
    change (emit ?e m) with (later m (sensor m) [e]).
    rewrite emit_later, events_since_later. reflexivity. }
  assert (Hoff : on (sensor (adv7180_power false m)) = false).
  { unfold adv7180_power. cbn [andb negb].
    destruct (on (sensor m)); [|reflexivity].
    cbn [snd adv7180_write_reg i2c_smbus_write_byte_data emit sensor].
    destruct (gpio_is_valid _); reflexivity. }
  cbn [fst snd]. rewrite Hoff.
  destruct (on (sensor m)), (locked (sensor m)); cbn [negb];
    repeat split; try congruence; try tauto;
    try (intros [? ?]; congruence); intros; exfalso; congruence.
Qed.

End Status.

(* ================================================================== *)
(** ** The further properties on concrete machines *)

(** X5 on a locked decoder whose chip fails the read of STATUS_1. *)
Lemma autodetect_read_failure_keeps_standard_witness :
  adv7180_get_autodetect_std (hdr := linux_headers) true m_locked_nak_status1
  = ((EIO_neg, false),
     later m_locked_nak_status1 (sensor m_locked_nak_status1)
           [I2c (Rd ADV7180_STATUS_1) EIO_neg]).
Proof.
  exact (autodetect_read_failure_keeps_standard (hdr := linux_headers)
           true m_locked_nak_status1 eq_refl eq_refl).
Defined.

(** X6 on a locked NTSC decoder that reads code 4 twice: the first
    call switches to PAL, the second reports no change. *)
Lemma autodetect_same_code_again_reports_no_change_witness :
  fst (adv7180_get_autodetect_std (hdr := linux_headers) false (m_locked 0x45))
  = (0, true)
  /\ fst (adv7180_get_autodetect_std (hdr := linux_headers) true
            (snd (adv7180_get_autodetect_std (hdr := linux_headers) false
                    (m_locked 0x45))))
     = (0, false).
Proof.
  split; [reflexivity|].
  pose proof (autodetect_same_code_again_reports_no_change (hdr := linux_headers)
                false true (m_locked 0x45) eq_refl
                ltac:(vm_compute; discriminate)) as H.
  destruct (adv7180_get_autodetect_std false (m_locked 0x45))
    as [[r1 c1] m1] eqn:E.
  vm_compute in E. inversion E; subst r1 c1 m1; clear E.
  specialize (H ltac:(vm_compute; discriminate) eq_refl).
  cbn [snd].
  destruct (adv7180_get_autodetect_std true _) as [[r2 c2] m2].
  destruct H as (-> & -> & _). reflexivity.
Defined.

(** X7 on a decoder that holds SECAM with the PAL geometry and reads
    code 7. *)
Lemma autodetect_secam_525_after_secam_keeps_geometry_witness :
  fst (adv7180_get_autodetect_std (hdr := linux_headers) false m_secam_then_525)
  = (0, false)
  /\ sensor (snd (adv7180_get_autodetect_std (hdr := linux_headers) false
                    m_secam_then_525))
     = sensor m_secam_then_525
  /\ video_idx (sensor m_secam_then_525) = ADV7180_PAL.
Proof.
  destruct (autodetect_secam_525_after_secam_keeps_geometry
              (hdr := linux_headers) false m_secam_then_525
              eq_refl eq_refl ltac:(vm_compute; discriminate) eq_refl)
    as (_ & _ & H).
  destruct (adv7180_get_autodetect_std false m_secam_then_525) as [[r c] m'].
  destruct H as (-> & -> & Hs). cbn [fst snd].
  split; [reflexivity|]. split; [exact Hs | reflexivity].
Defined.

(** X10 on a chip that accepts the Cb write and refuses the Cr write
    of the saturation setter. *)
Lemma s_ctrl_failed_write_keeps_mirror_witness :
  fst (adv7180_s_ctrl (hdr := linux_headers)
         {| id := V4L2_CID_SATURATION; val := 200 |} m_nak_saturation_cr)
  = EIO_neg
  /\ sensor (snd (adv7180_s_ctrl (hdr := linux_headers)
                    {| id := V4L2_CID_SATURATION; val := 200 |}
                    m_nak_saturation_cr))
     = sensor m_nak_saturation_cr.
Proof.
  pose proof (s_ctrl_failed_write_keeps_mirror (hdr := linux_headers)
                {| id := V4L2_CID_SATURATION; val := 200 |}
                m_nak_saturation_cr) as H.
  destruct (adv7180_s_ctrl {| id := V4L2_CID_SATURATION; val := 200 |}
              m_nak_saturation_cr) as [r m'] eqn:E.
  vm_compute in E. inversion E; subst r m'; clear E.
  destruct (H eq_refl) as [_ Hs].
  split; [reflexivity | exact Hs].
Defined.

(** The same at an id the switch does not list. *)
Lemma s_ctrl_other_ids_touch_nothing_witness :
  adv7180_s_ctrl (hdr := linux_headers)
    {| id := V4L2_CID_unlisted; val := 5 |} (m_healthy 0x05 0x02)
  = (-1, m_healthy 0x05 0x02).
Proof.
  apply (s_ctrl_other_ids_touch_nothing (hdr := linux_headers)
           {| id := V4L2_CID_unlisted; val := 5 |} (m_healthy 0x05 0x02));
    discriminate.
Defined.

(** X13 on a locked NTSC decoder that is about to switch to PAL. *)
Lemma geometry_is_preserved_witness :
  geometry_ok (hdr := linux_headers)
    (sensor (snd (adv7180_get_autodetect_std (hdr := linux_headers) false
                    (m_locked 0x45)))) = true
  /\ geometry_ok (hdr := linux_headers)
       (sensor (snd (adv7180_interrupt (hdr := linux_headers) false false
                       (m_locked 0x45)))) = true.
Proof.
  destruct (geometry_is_preserved (hdr := linux_headers) (m_locked 0x45) eq_refl)
    as (_ & Hstd & Hirq & _).
  split; [apply Hstd | apply Hirq].
Defined.

(** X14 on the NTSC decoder: the 720 x 480 crop at line 13 lies in the
    720 x 525 frame. *)
Lemma crop_lies_within_frame_witness :
  rect_top (crop_c (snd (fst (adv7180_g_crop
                                (hdr := linux_headers) (v4l2 := linux_v4l2_headers)
                                {| crop_type := 0;
                                   crop_c := {| rect_left := 0; rect_top := 0;
                                                rect_width := 0; rect_height := 0 |} |}
                                (m_healthy 0x05 0x02)))))
  + rect_height (crop_c (snd (fst (adv7180_g_crop
                                     (hdr := linux_headers) (v4l2 := linux_v4l2_headers)
                                     {| crop_type := 0;
                                        crop_c := {| rect_left := 0; rect_top := 0;
                                                     rect_width := 0; rect_height := 0 |} |}
                                     (m_healthy 0x05 0x02)))))
  <= fmt_height (snd (fst (adv7180_g_mbus_fmt
                             {| fmt_width := 0; fmt_height := 0;
                                fmt_code := 0; fmt_field := 0 |}
                             (m_healthy 0x05 0x02)))).
Proof.
  pose proof (crop_lies_within_frame
                (hdr := linux_headers) (v4l2 := linux_v4l2_headers)
                {| fmt_width := 0; fmt_height := 0; fmt_code := 0; fmt_field := 0 |}
                {| crop_type := 0;
                   crop_c := {| rect_left := 0; rect_top := 0;
                                rect_width := 0; rect_height := 0 |} |}
                {| fs_index := 0; fs_type := 0;
                   fs_discrete_width := 0; fs_discrete_height := 0 |}
                (m_healthy 0x05 0x02) eq_refl) as H.
  cbv beta iota zeta delta [adv7180_g_mbus_fmt adv7180_g_crop adv7180_enum_framesizes] in H.
  destruct H as (_ & _ & _ & _ & _ & _ & _ & _ & H & _).
  exact H.
Defined.

(** X17 with the Linux values, on a powered decoder that is not
    locked. *)
Lemma input_status_reports_power_then_lock_witness :
  snd (fst (adv7180_g_input_status (v4l2 := linux_v4l2_headers) 0
              (m_healthy 0x05 0x02)))
  = 0x00010002.
Proof.
  pose proof (input_status_reports_power_then_lock
                (hdr := linux_headers) (v4l2 := linux_v4l2_headers)
                0 (m_healthy 0x05 0x02)
                ltac:(discriminate) ltac:(discriminate) ltac:(discriminate)) as H.
  destruct (adv7180_g_input_status 0 (m_healthy 0x05 0x02)) as [[r st] m'].
  destruct H as (_ & _ & _ & _ & _ & H & _).
  cbn [fst snd]. apply H. split; reflexivity.
Defined.

(** X18 on an NTSC decoder without irq whose chip reports FSC lock
    only: the poll finds it unlocked and returns NTSC. *)
Lemma querystd_keeps_standard_while_unlocked_witness :
  fst (adv7180_querystd (hdr := linux_headers) 0 (m_healthy 0x04 0x02))
  = (0, V4L2_STD_NTSC (kernel_headers := linux_headers)).
Proof.
  pose proof (querystd_keeps_standard_while_unlocked (hdr := linux_headers)
                0 (m_healthy 0x04 0x02) eq_refl eq_refl eq_refl) as H.
  destruct (adv7180_querystd 0 (m_healthy 0x04 0x02)) as [[r std'] m'].
  destruct H as (-> & -> & _). reflexivity.
Defined.
